(** * RAG classification and weekly report categorisation

    A shallow embedding of the classification core of the Jira reporting
    tool: [jira_mcp_server/models.py], [jira_mcp_server/config.py],
    [jira_mcp_server/rag_classifier.py] and the categorisation part of
    [jira_mcp_server/report_generator.py].

    Conventions of the embedding.
    - Python [str] is [string]; [str.lower] is modelled on ASCII letters
      (bytes above 127 are left alone), which is exact for ASCII text.
    - Python [int] is [Z]; list lengths and tallies are [nat].
    - A [date] is its proleptic Gregorian ordinal, from 1 (0001-01-01) to
      3652059 (9999-12-31); subtracting days below day 1 raises.  A
      [datetime] is naive or timezone-aware and carries a number of
      microseconds: a naive one counts them on its own calendar and clock
      from the first instant of ordinal day 0, an aware one counts the same
      for its UTC reading.  Comparing a naive with an aware one raises.
    - An attribute that pydantic declares with a non-optional type is only
      validated when the model object is constructed; later assignments are
      not checked (the test-suite assigns to attributes freely).  The two
      attributes whose absence makes the classifier raise, [status] and
      [labels], may therefore hold [None] here; [validated] says they do not.
    - Python exceptions are values of [PyExc]; code that can raise lives in
      the [exc] monad.
    - Issue objects live in a store and lists hold references to them, so
      that the in-place writes of the batch classifier are visible through
      every alias.
    - The two "overall status" thresholds divide and multiply Python numbers;
      they are embedded in exact rational arithmetic, and [FloatCheck]
      replays them in binary64 arithmetic for comparison. *)

From Stdlib Require Import ZArith QArith String Ascii List Bool Lia.
From Stdlib Require Import DecimalString Floats Uint63.
From stdpp Require Import gmap strings list.

Local Open Scope string_scope.
Local Open Scope list_scope.

(** ** Python primitives *)

Module Py.

Inductive PyExc : Type :=
| AttributeError (msg : string)
| TypeError (msg : string)
| OverflowError (msg : string).

(** [str(e)] *)
Definition str_exc (e : PyExc) : string :=
  match e with
  | AttributeError msg => msg
  | TypeError msg => msg
  | OverflowError msg => msg
  end.

Inductive exc (A : Type) : Type :=
| Return (a : A)
| Raise (e : PyExc).
Arguments Return {A} a.
Arguments Raise {A} e.

#[export] Instance exc_ret : MRet exc := fun A a => Return a.
#[export] Instance exc_bind : MBind exc := fun A B f m =>
  match m with
  | Return a => f a
  | Raise e => Raise e
  end.

(** [obj.attr] on a reference that may be [None] *)
Definition getattr {A B : Type} (o : option A) (attr : string) (proj : A -> B)
  : exc B :=
  match o with
  | Some a => Return (proj a)
  | None =>
      Raise (AttributeError
               ("'NoneType' object has no attribute '" +:+ attr +:+ "'"))
  end.

(** [for x in obj] on a reference that may be [None] *)
Definition iter {A : Type} (o : option (list A)) : exc (list A) :=
  match o with
  | Some l => Return l
  | None => Raise (TypeError "'NoneType' object is not iterable")
  end.

(** [any(f(x) for x in l)]: stops at the first true element, and at the
    first element whose test raises. *)
Fixpoint any {A : Type} (f : A -> exc bool) (l : list A) : exc bool :=
  match l with
  | [] => Return false
  | x :: l' => b ← f x; if b : bool then Return true else any f l'
  end.

Definition lower_ascii (c : ascii) : ascii :=
  let n := nat_of_ascii c in
  if (65 <=? n)%nat && (n <=? 90)%nat then ascii_of_nat (n + 32) else c.

(** [s.lower()] *)
Fixpoint lower (s : string) : string :=
  match s with
  | EmptyString => EmptyString
  | String c s' => String (lower_ascii c) (lower s')
  end.

(** [needle in hay] on two strings: substring test *)
Fixpoint str_in (needle hay : string) : bool :=
  String.prefix needle hay
  || match hay with
     | EmptyString => false
     | String _ hay' => str_in needle hay'
     end.

(** [x in l] on a list of strings *)
Definition list_in (x : string) (l : list string) : bool :=
  existsb (String.eqb x) l.

(** [str(n)] for an [int] and for a length *)
Definition str_int (n : Z) : string := NilZero.string_of_int (Z.to_int n).
Definition str_len (n : nat) : string := NilZero.string_of_uint (Nat.to_uint n).

(** [sep.join(l)] *)
Definition join (sep : string) (l : list string) : string := String.concat sep l.

(** truth value of a list *)
Definition truthy {A : Type} (l : list A) : bool :=
  match l with [] => false | _ :: _ => true end.

End Py.

(** ** models.py *)

Module models.

Inductive RAGStatus : Type := RED | AMBER | GREEN.

#[export] Instance RAGStatus_eq_dec : EqDecision RAGStatus.
Proof. solve_decision. Defined.

Record IssueStatus : Type := { id : string; name : string; category : string }.

Record User : Type := { account_id : string; display_name : string }.

Definition date : Type := Z.

Inductive datetime : Type :=
| Naive (microseconds : Z)
| Aware (microseconds : Z).

(** The attributes of [Issue] that the classifier and the report
    categoriser read or write.  [status] and [labels] are references that
    can be [None] on a record changed after validation. *)
Record Issue : Type := {
  key : string;
  status : option IssueStatus;
  priority : string;
  assignee : option User;
  updated : datetime;
  resolved : option datetime;
  labels : option (list string);
  blockers : list string;
  rag_status : option RAGStatus;
  rag_reason : option string;
  days_in_status : option Z;
  is_blocked : bool
}.

(** What pydantic guarantees of a freshly constructed [Issue]. *)
Definition validated (issue : Issue) : Prop :=
  is_Some (status issue) /\ is_Some (labels issue).

Record WeeklyReportData : Type := {
  started_issues : list Issue;
  completed_issues : list Issue;
  blocked_issues : list Issue;
  at_risk_issues : list Issue;
  total_issues : nat;
  green_count : nat;
  amber_count : nat;
  red_count : nat;
  overall_rag_status : RAGStatus
}.

End models.

(** ** config.py *)

Module config.

Record RAGConfig : Type := {
  green_max_days_in_status : Z;
  yellow_max_days_in_status : Z;
  red_priority_levels : list string;
  blocked_statuses : list string
}.

(** [RAGConfig()], the field defaults *)
Definition default_RAGConfig : RAGConfig := {|
  green_max_days_in_status := 3;
  yellow_max_days_in_status := 7;
  red_priority_levels := ["Highest"; "High"];
  blocked_statuses := ["Blocked"; "Waiting"]
|}.

End config.

(** [RAGConfig()] of the top-level [enhanced_config.py], the configuration
    of the later scripts: [validate_phase3.py] and [test_phase3_github.py]
    hand it to [JiraMCPServer], which builds its classifier from the [rag]
    field.  The classifier reads the same four fields of it. *)
Module enhanced_config.

Definition default_RAGConfig : config.RAGConfig := {|
  config.green_max_days_in_status := 3;
  config.yellow_max_days_in_status := 7;
  config.red_priority_levels := ["Highest"; "High"];
  config.blocked_statuses := ["Blocked"; "Waiting"; "On Hold"]
|}.

End enhanced_config.

(** ** rag_classifier.py *)

Module rag_classifier.
Import Py models config.

Record RAGClassificationResult : Type := {
  status : RAGStatus;
  reason : string;
  confidence : float
}.

(** The [NamedTuple] default [confidence=1.0]. *)
Definition result (s : RAGStatus) (r : string) : RAGClassificationResult :=
  {| status := s; reason := r; confidence := 1.0 |}.

Definition critical_labels : list string :=
  ["critical-blocker"; "production-issue"; "escalated"].
Definition risk_labels : list string :=
  ["risk"; "concern"; "dependency"; "delayed"].
Definition development_statuses : list string :=
  ["in progress"; "development"; "coding"; "implementation"].

(** [[label for label in labels if any(w in label.lower() for w in vocabulary)]] *)
Definition found_labels (vocabulary labels : list string) : list string :=
  List.filter (fun label => existsb (fun w => str_in w (lower label)) vocabulary)
              labels.

(** [issue.days_in_status is not None and issue.days_in_status > bound] *)
Definition days_over (issue : Issue) (bound : Z) : bool :=
  match days_in_status issue with
  | Some d => (bound <? d)%Z
  | None => false
  end.

(** [issue.days_in_status <= bound], reached only behind a [None] test *)
Definition days_at_most (issue : Issue) (bound : Z) : bool :=
  match days_in_status issue with
  | Some d => (d <=? bound)%Z
  | None => false
  end.

(** [str(issue.days_in_status)] inside an f-string *)
Definition str_days (issue : Issue) : string :=
  match days_in_status issue with
  | Some d => str_int d
  | None => "None"
  end.

(** [issue.status.name] *)
Definition status_name (issue : Issue) : exc string :=
  getattr (models.status issue) "name" name.

(** [any(w in issue.status.name.lower() for w in words)] *)
Definition status_name_has (issue : Issue) (words : list string) : exc bool :=
  any (fun w => n ← status_name issue; mret (str_in w (lower n))) words.

Definition _check_red_conditions (cfg : RAGConfig) (issue : Issue)
  : exc (option RAGClassificationResult) :=
  (* Explicitly blocked issues *)
  blocked ← (if is_blocked issue then mret true
             else status_name_has issue (map lower (blocked_statuses cfg)));
  if blocked : bool then
    n ← status_name issue;
    mret (Some (result RED ("Issue is in blocked status: " +:+ n)))
  (* High priority issues that have been in status too long *)
  else if list_in (priority issue) (red_priority_levels cfg)
          && days_over issue (yellow_max_days_in_status cfg) then
    n ← status_name issue;
    mret (Some (result RED
      ("High priority issue (" +:+ priority issue +:+ ") has been in " +:+ n
         +:+ " for " +:+ str_days issue +:+ " days")))
  (* Issues with blocker links *)
  else if truthy (blockers issue) then
    mret (Some (result RED
      ("Issue has " +:+ str_len (length (blockers issue))
         +:+ " blocking dependencies")))
  else
    (* Check for critical labels that indicate problems *)
    ls ← iter (labels issue);
    let found_critical_labels := found_labels critical_labels ls in
    if truthy found_critical_labels then
      mret (Some (result RED
        ("Issue has critical labels: " +:+ join ", " found_critical_labels)))
    else mret None.

Definition _check_amber_conditions (cfg : RAGConfig) (issue : Issue)
  : exc (option RAGClassificationResult) :=
  (* Issues that have been in status longer than green threshold *)
  if days_over issue (green_max_days_in_status cfg)
     && days_at_most issue (yellow_max_days_in_status cfg) then
    n ← status_name issue;
    mret (Some (result AMBER
      ("Issue has been in " +:+ n +:+ " for " +:+ str_days issue +:+ " days")))
  (* High priority issues (even if not overdue) *)
  else if list_in (priority issue) (red_priority_levels cfg) then
    mret (Some (result AMBER
      ("High priority issue (" +:+ priority issue
         +:+ ") requires close monitoring")))
  else
    (* Issues with risk-related labels *)
    ls ← iter (labels issue);
    let found_risk_labels := found_labels risk_labels ls in
    if truthy found_risk_labels then
      mret (Some (result AMBER
        ("Issue has risk-related labels: " +:+ join ", " found_risk_labels)))
    (* Issues without assignee for too long *)
    else if negb (bool_decide (is_Some (assignee issue)))
            && days_over issue (green_max_days_in_status cfg) then
      n ← status_name issue;
      mret (Some (result AMBER
        ("Unassigned issue has been in " +:+ n +:+ " for " +:+ str_days issue
           +:+ " days")))
    else
      (* Check for issues in development statuses that might be stalled *)
      dev ← status_name_has issue development_statuses;
      if (dev : bool) && days_over issue (green_max_days_in_status cfg) then
        mret (Some (result AMBER
          ("Development issue has been in progress for " +:+ str_days issue
             +:+ " days")))
      else mret None.

Definition classify_issue (cfg : RAGConfig) (issue : Issue)
  : exc RAGClassificationResult :=
  (* Check for explicit blocking conditions (highest priority) *)
  red_result ← _check_red_conditions cfg issue;
  match red_result with
  | Some r => mret r
  | None =>
      (* Check for amber/yellow conditions *)
      amber_result ← _check_amber_conditions cfg issue;
      match amber_result with
      | Some r => mret r
      | None =>
          (* Default to green if no concerning conditions *)
          mret (result GREEN
                  "Issue is progressing normally with no identified risks")
      end
  end.

(** *** Batch classification over the object store *)

Definition loc : Type := nat.

(** [issue.rag_status = s; issue.rag_reason = r] *)
Definition set_rag (issue : Issue) (s : RAGStatus) (r : string) : Issue := {|
  key := key issue;
  models.status := models.status issue;
  priority := priority issue;
  assignee := assignee issue;
  updated := updated issue;
  resolved := resolved issue;
  labels := labels issue;
  blockers := blockers issue;
  rag_status := Some s;
  rag_reason := Some r;
  days_in_status := days_in_status issue;
  is_blocked := is_blocked issue
|}.

(** The verdict built by the [except] handler. *)
Definition error_result (e : PyExc) : RAGClassificationResult := {|
  status := AMBER;
  reason := "Classification error: " +:+ str_exc e;
  confidence := 0.0
|}.

(** What the batch loop keeps: the [results] dict, the store that holds
    the issue objects, and the lines sent to [logger.error]. *)
Record BatchState : Type := {
  results : gmap string RAGClassificationResult;
  objects : gmap loc Issue;
  errors_logged : list string
}.

(** The body of [for issue in issues], with its [try]/[except].  A
    reference always points to an object; the first case is only there
    to make the function total. *)
Definition classify_one (cfg : RAGConfig) (st : BatchState) (l : loc)
  : BatchState :=
  match objects st !! l with
  | None => st
  | Some issue =>
      match classify_issue cfg issue with
      | Return result => {|
          results := <[key issue := result]> (results st);
          objects := <[l := set_rag issue (status result) (reason result)]>
                       (objects st);
          errors_logged := errors_logged st
        |}
      | Raise e =>
          let degraded := error_result e in {|
          results := <[key issue := degraded]> (results st);
          objects :=
            <[l := set_rag issue (status degraded) (reason degraded)]>
              (objects st);
          errors_logged :=
            errors_logged st
            ++ ["Error classifying issue " +:+ key issue +:+ ": " +:+ str_exc e]
        |}
      end
  end.

Definition classify_issues_batch (cfg : RAGConfig) (issues : list loc)
    (σ : gmap loc Issue) : BatchState :=
  foldl (classify_one cfg)
        {| results := ∅; objects := σ; errors_logged := [] |} issues.

(** *** Summary helpers *)

Record Summary : Type := {
  total : nat;
  green : nat;
  amber : nat;
  red : nat;
  unclassified : nat
}.

(** One round of the tally loop of [get_rag_summary]. *)
Definition tally (summary : Summary) (issue : Issue) : Summary :=
  match rag_status issue with
  | Some GREEN => {| total := total summary; green := S (green summary);
                     amber := amber summary; red := red summary;
                     unclassified := unclassified summary |}
  | Some AMBER => {| total := total summary; green := green summary;
                     amber := S (amber summary); red := red summary;
                     unclassified := unclassified summary |}
  | Some RED => {| total := total summary; green := green summary;
                   amber := amber summary; red := S (red summary);
                   unclassified := unclassified summary |}
  | None => {| total := total summary; green := green summary;
               amber := amber summary; red := red summary;
               unclassified := S (unclassified summary) |}
  end.

Definition get_rag_summary (issues : list Issue) : Summary :=
  foldl tally
        {| total := length issues; green := 0; amber := 0; red := 0;
           unclassified := 0 |}
        issues.

(** [n] as a Python number in exact arithmetic *)
Definition num (n : nat) : Q := inject_Z (Z.of_nat n).

(** [x > y] on exact numbers *)
Definition Qgtb (x y : Q) : bool := negb (Qle_bool x y).

Definition get_overall_status (issues : list Issue) : RAGStatus :=
  if negb (truthy issues) then GREEN
  else
    let summary := get_rag_summary issues in
    (* If any red issues, overall is red *)
    if (0 <? red summary)%nat then RED
    else
      (* If more than 20% amber issues, overall is amber *)
      let amber_percentage : Q :=
        if (0 <? total summary)%nat
        then (num (amber summary) / num (total summary))%Q
        else 0%Q in
      if Qgtb amber_percentage 0.2 then AMBER
      else GREEN.

End rag_classifier.

(** ** report_generator.py *)

Module report_generator.
Import Py models config.

Definition microseconds_per_day : Z := 86400000000.

(** [date.min] and [date.max] as ordinals *)
Definition min_ordinal : Z := 1.
Definition max_ordinal : Z := 3652059.

(** [d - timedelta(days=n)] *)
Definition minus_days (d : date) (n : Z) : exc date :=
  let r := (d - n)%Z in
  if (min_ordinal <=? r)%Z && (r <=? max_ordinal)%Z then mret r
  else Raise (OverflowError "date value out of range").

(** [datetime.combine(d, t)] with the time given in microseconds; the
    result is naive *)
Definition combine (d : date) (t : Z) : datetime :=
  Naive (d * microseconds_per_day + t)%Z.

(** [datetime.min.time()] and [datetime.max.time()] *)
Definition min_time : Z := 0.
Definition max_time : Z := microseconds_per_day - 1.

(** [a <= b] on two datetimes *)
Definition le (a b : datetime) : exc bool :=
  match a, b with
  | Naive x, Naive y => mret (x <=? y)%Z
  | Aware x, Aware y => mret (x <=? y)%Z
  | _, _ =>
      Raise (TypeError "can't compare offset-naive and offset-aware datetimes")
  end.

(** [a <= b <= c]: the second comparison is made only when the first
    holds *)
Definition le_le (a b c : datetime) : exc bool :=
  first ← le a b;
  if first : bool then le b c else mret false.

Definition in_progress_statuses : list string :=
  ["in progress"; "development"; "coding"; "implementation";
   "in development"; "work in progress"; "doing"].

Definition _was_started_this_week (issue : Issue)
    (week_start week_end : datetime) : exc bool :=
  is_in_progress ← rag_classifier.status_name_has issue in_progress_statuses;
  was_updated_this_week ← le_le week_start (updated issue) week_end;
  mret (is_in_progress && was_updated_this_week).

Definition _was_completed_this_week (issue : Issue)
    (week_start week_end : datetime) : exc bool :=
  match resolved issue with
  | Some r => le_le week_start r week_end
  | None => mret false
  end.

(** [rag_status == RAGStatus.X] *)
Definition has_rag (s : RAGStatus) (issue : Issue) : bool :=
  bool_decide (rag_status issue = Some s).

(** The four lists the loop appends to. *)
Record Sections : Type := {
  started : list Issue;
  completed : list Issue;
  blocked : list Issue;
  at_risk : list Issue
}.

(** The body of [for issue in issues]. *)
Definition categorize_one (week_start week_end : datetime)
    (acc : Sections) (issue : Issue) : exc Sections :=
  is_started ← _was_started_this_week issue week_start week_end;
  let started' :=
    if is_started : bool then started acc ++ [issue] else started acc in
  is_completed ← _was_completed_this_week issue week_start week_end;
  let completed' :=
    if is_completed : bool then completed acc ++ [issue] else completed acc in
  if has_rag RED issue then
    mret {| started := started'; completed := completed';
            blocked := blocked acc ++ [issue]; at_risk := at_risk acc |}
  else if has_rag AMBER issue then
    mret {| started := started'; completed := completed';
            blocked := blocked acc; at_risk := at_risk acc ++ [issue] |}
  else
    mret {| started := started'; completed := completed';
            blocked := blocked acc; at_risk := at_risk acc |}.

Fixpoint categorize_loop (week_start week_end : datetime)
    (acc : Sections) (issues : list Issue) : exc Sections :=
  match issues with
  | [] => mret acc
  | issue :: rest =>
      acc' ← categorize_one week_start week_end acc issue;
      categorize_loop week_start week_end acc' rest
  end.

(** The overall status of the report, from the three counts. *)
Definition overall_of_counts (green_count amber_count red_count : nat)
  : RAGStatus :=
  if (0 <? red_count)%nat then RED
  else if rag_classifier.Qgtb (rag_classifier.num amber_count)
                              (rag_classifier.num green_count * 0.3)%Q
       then AMBER
       else GREEN.

(** The report's name and week label are only copied into the rendered
    text and are left out. *)
Definition _categorize_issues_for_report (issues : list Issue)
    (week_ending : date) : exc WeeklyReportData :=
  week_start ← minus_days week_ending 6;
  let week_start_datetime := combine week_start min_time in
  let week_end_datetime := combine week_ending max_time in
  (* Categorize issues *)
  sections ← categorize_loop week_start_datetime week_end_datetime
               {| started := []; completed := []; blocked := []; at_risk := [] |}
               issues;
  (* Calculate summary statistics *)
  let total_issues := length issues in
  let green_count := length (List.filter (has_rag GREEN) issues) in
  let amber_count := length (List.filter (has_rag AMBER) issues) in
  let red_count := length (List.filter (has_rag RED) issues) in
  mret {|
    started_issues := started sections;
    completed_issues := completed sections;
    blocked_issues := blocked sections;
    at_risk_issues := at_risk sections;
    total_issues := total_issues;
    green_count := green_count;
    amber_count := amber_count;
    red_count := red_count;
    (* Determine overall RAG status *)
    overall_rag_status := overall_of_counts green_count amber_count red_count
  |}.

End report_generator.

(** ** The two thresholds in binary64 arithmetic

    Python divides two [int]s into a [float], the correctly rounded
    quotient, and multiplies an [int] by the [float] literal [0.3] after
    converting the [int]; the literals [0.2] and [0.3] are the nearest
    binary64 numbers.  The comparisons below replay that, for tallies small
    enough to convert exactly. *)

Module FloatCheck.
Import models rag_classifier.

(** [float(n)] *)
Definition of_count (n : nat) : float :=
  PrimFloat.of_uint63 (Uint63.of_Z (Z.of_nat n)).

(** [amber / total > 0.2] *)
Definition share_over (amber total : nat) : bool :=
  PrimFloat.ltb 0x1.999999999999ap-3 (PrimFloat.div (of_count amber) (of_count total)).

(** [amber > green * 0.3] *)
Definition over_green (amber green : nat) : bool :=
  PrimFloat.ltb (PrimFloat.mul (of_count green) 0x1.3333333333333p-2)
                (of_count amber).

(** [get_overall_status] with the comparison done in binary64 *)
Definition get_overall_status_float (issues : list Issue) : RAGStatus :=
  if negb (Py.truthy issues) then GREEN
  else
    let summary := get_rag_summary issues in
    if (0 <? red summary)%nat then RED
    else if (0 <? total summary)%nat
            && share_over (amber summary) (total summary) then AMBER
    else GREEN.

(** [overall_of_counts] with the comparison done in binary64 *)
Definition overall_of_counts_float (green_count amber_count red_count : nat)
  : RAGStatus :=
  if (0 <? red_count)%nat then RED
  else if over_green amber_count green_count then AMBER
  else GREEN.

(** The largest tally the comparisons are replayed for. *)
Definition bound : nat := 200.

End FloatCheck.

(** ** The conditions of the classification rules, named

    Each predicate spells one rule's condition out on the issue record, the
    way the specification words it; the theorems below relate them to what
    [classify_issue] returns. *)

Module rules.
Import Py models config.

Section conditions.
Variable cfg : RAGConfig.
Variable issue : Issue.

(** the status name contains, ignoring case, the word [w] *)
Definition status_contains (w : string) : Prop :=
  exists st, status issue = Some st /\ str_in (lower w) (lower (name st)) = true.

(** rule 1a *)
Definition blocked_condition : Prop :=
  is_blocked issue = true
  \/ exists w, w ∈ blocked_statuses cfg /\ status_contains w.

Definition high_priority : Prop := priority issue ∈ red_priority_levels cfg.

(** rule 1b *)
Definition overdue_priority_condition : Prop :=
  high_priority
  /\ exists d, days_in_status issue = Some d
               /\ (yellow_max_days_in_status cfg < d)%Z.

(** rule 1c *)
Definition blockers_condition : Prop := blockers issue <> [].

(** some label contains, ignoring case, a word of the vocabulary *)
Definition label_condition (vocabulary : list string) : Prop :=
  exists ls l w, labels issue = Some ls /\ l ∈ ls /\ w ∈ vocabulary
                 /\ str_in w (lower l) = true.

Definition red_condition : Prop :=
  blocked_condition \/ overdue_priority_condition \/ blockers_condition
  \/ label_condition rag_classifier.critical_labels.

(** rule 2a *)
Definition age_condition : Prop :=
  exists d, days_in_status issue = Some d
            /\ (green_max_days_in_status cfg < d)%Z
            /\ (d <= yellow_max_days_in_status cfg)%Z.

(** rule 2d *)
Definition unassigned_condition : Prop :=
  assignee issue = None
  /\ exists d, days_in_status issue = Some d
               /\ (green_max_days_in_status cfg < d)%Z.

(** rule 2e *)
Definition stalled_condition : Prop :=
  (exists w, w ∈ rag_classifier.development_statuses /\ status_contains w)
  /\ exists d, days_in_status issue = Some d
               /\ (green_max_days_in_status cfg < d)%Z.

Definition amber_condition : Prop :=
  age_condition \/ high_priority
  \/ label_condition rag_classifier.risk_labels
  \/ unassigned_condition \/ stalled_condition.

End conditions.

(** The tests of [_check_red_conditions] and [_check_amber_conditions] as
    booleans, for an issue whose status is [st] and whose labels are [ls]. *)
Definition red_tests (cfg : RAGConfig) (issue : Issue) (st : IssueStatus)
    (ls : list string) : bool :=
  (is_blocked issue
   || existsb (fun w => str_in w (lower (name st))) (map lower (blocked_statuses cfg)))
  || (list_in (priority issue) (red_priority_levels cfg)
      && rag_classifier.days_over issue (yellow_max_days_in_status cfg))
  || truthy (blockers issue)
  || truthy (rag_classifier.found_labels rag_classifier.critical_labels ls).

Definition amber_tests (cfg : RAGConfig) (issue : Issue) (st : IssueStatus)
    (ls : list string) : bool :=
  (rag_classifier.days_over issue (green_max_days_in_status cfg)
   && rag_classifier.days_at_most issue (yellow_max_days_in_status cfg))
  || list_in (priority issue) (red_priority_levels cfg)
  || truthy (rag_classifier.found_labels rag_classifier.risk_labels ls)
  || (negb (bool_decide (is_Some (assignee issue)))
      && rag_classifier.days_over issue (green_max_days_in_status cfg))
  || (existsb (fun w => str_in w (lower (name st)))
              rag_classifier.development_statuses
      && rag_classifier.days_over issue (green_max_days_in_status cfg)).

(** The verdict of the GREEN default. *)
Definition green_result : rag_classifier.RAGClassificationResult :=
  rag_classifier.result GREEN
    "Issue is progressing normally with no identified risks".

(** The same configuration with other day thresholds. *)
Definition with_thresholds (cfg : RAGConfig) (green_max yellow_max : Z)
  : RAGConfig := {|
  green_max_days_in_status := green_max;
  yellow_max_days_in_status := yellow_max;
  red_priority_levels := red_priority_levels cfg;
  blocked_statuses := blocked_statuses cfg
|}.

End rules.

(** ** The batch loop, issue by issue

    What one round of the batch loop does to an issue, as functions of the
    issue alone; [batch_facts] proves that the loop computes them. *)

Module batch_view.
Import Py models config rag_classifier.

(** The verdict the loop records for an issue: the classifier's, or the
    degraded one when the classifier raises. *)
Definition verdict (cfg : RAGConfig) (issue : Issue) : RAGClassificationResult :=
  match classify_issue cfg issue with
  | Return r => r
  | Raise e => error_result e
  end.

(** The issue after the loop has written its verdict on it. *)
Definition classified (cfg : RAGConfig) (issue : Issue) : Issue :=
  set_rag issue (status (verdict cfg issue)) (reason (verdict cfg issue)).

(** The lines the loop logs for an issue. *)
Definition error_lines (cfg : RAGConfig) (issue : Issue) : list string :=
  match classify_issue cfg issue with
  | Return _ => []
  | Raise e =>
      ["Error classifying issue " +:+ key issue +:+ ": " +:+ str_exc e]
  end.

(** The issue without the two fields the classifier writes. *)
Definition inputs (issue : Issue) : Issue := {|
  key := key issue;
  models.status := models.status issue;
  priority := priority issue;
  assignee := assignee issue;
  updated := updated issue;
  resolved := resolved issue;
  labels := labels issue;
  blockers := blockers issue;
  rag_status := None;
  rag_reason := None;
  days_in_status := days_in_status issue;
  is_blocked := is_blocked issue
|}.

(** [results[issue.key] = verdict] for the object at [l] of the store [σ] *)
Definition add_entry (cfg : RAGConfig) (σ : gmap loc Issue)
    (m : gmap string RAGClassificationResult) (l : loc)
  : gmap string RAGClassificationResult :=
  match σ !! l with
  | Some issue => <[key issue := verdict cfg issue]> m
  | None => m
  end.

(** The lines logged for the object at [l] of the store [σ] *)
Definition logged (cfg : RAGConfig) (σ : gmap loc Issue) (l : loc) : list string :=
  match σ !! l with
  | Some issue => error_lines cfg issue
  | None => []
  end.

End batch_view.

(** ** Tallies and section tests, issue by issue *)

Module report_view.
Import Py models config report_generator.

(** How many issues of the list carry the tier [s]. *)
Definition count_rag (s : RAGStatus) (issues : list Issue) : nat :=
  length (List.filter (has_rag s) issues).

(** How many issues of the list carry no tier. *)
Definition count_unclassified (issues : list Issue) : nat :=
  length (List.filter (fun i => bool_decide (rag_status i = None)) issues).

(** An issue the report can handle: its status is present and its
    timestamps are naive, like the bounds of the week. *)
Definition is_naive (dt : datetime) : bool :=
  match dt with Naive _ => true | Aware _ => false end.

Definition reportable (issue : Issue) : Prop :=
  is_Some (status issue)
  /\ is_naive (updated issue) = true
  /\ (forall r, resolved issue = Some r -> is_naive r = true).

(** The tests of [_was_started_this_week] and [_was_completed_this_week]
    on a reportable issue, for a week from [week_start] to [week_end] in
    microseconds. *)
Definition started_test (week_start week_end : Z) (issue : Issue) : bool :=
  match status issue, updated issue with
  | Some st, Naive u =>
      existsb (fun w => str_in w (lower (name st))) in_progress_statuses
      && ((week_start <=? u)%Z && (u <=? week_end)%Z)
  | _, _ => false
  end.

Definition completed_test (week_start week_end : Z) (issue : Issue) : bool :=
  match resolved issue with
  | Some (Naive r) => (week_start <=? r)%Z && (r <=? week_end)%Z
  | _ => false
  end.

(** The first and the last microsecond of the week that ends on the day
    [week_ending]. *)
Definition first_microsecond (week_ending : date) : Z :=
  ((week_ending - 6) * 86400000000)%Z.

Definition last_microsecond (week_ending : date) : Z :=
  (week_ending * 86400000000 + 86399999999)%Z.

End report_view.

(** ** Example records *)

Module examples.
Import Py models config.

Definition in_progress : option IssueStatus :=
  Some {| id := "1"; name := "In Progress"; category := "indeterminate" |}.

Definition some_user : option User :=
  Some {| account_id := "user1"; display_name := "Test User" |}.

(** The sample issue of the test-suite: two days in progress, medium
    priority, assigned, no labels and no blockers. *)
Definition sample_issue : Issue := {|
  key := "TEST-123";
  status := in_progress;
  priority := "Medium";
  assignee := some_user;
  updated := Naive 0;
  resolved := None;
  labels := Some [];
  blockers := [];
  rag_status := None;
  rag_reason := None;
  days_in_status := Some 2%Z;
  is_blocked := false
|}.

(** Blocked, and also unassigned for ten days. *)
Definition blocked_unassigned_issue : Issue := {|
  key := "TEST-1";
  status := in_progress;
  priority := "Medium";
  assignee := None;
  updated := Naive 0;
  resolved := None;
  labels := Some [];
  blockers := [];
  rag_status := None;
  rag_reason := None;
  days_in_status := Some 10%Z;
  is_blocked := true
|}.

(** High priority, one day in its status. *)
Definition fresh_high_issue : Issue := {|
  key := "TEST-2";
  status := in_progress;
  priority := "High";
  assignee := some_user;
  updated := Naive 0;
  resolved := None;
  labels := Some [];
  blockers := [];
  rag_status := None;
  rag_reason := None;
  days_in_status := Some 1%Z;
  is_blocked := false
|}.

(** Medium priority, assigned, on hold for one day. *)
Definition on_hold_issue : Issue := {|
  key := "TEST-3";
  status := Some {| id := "7"; name := "On Hold"; category := "indeterminate" |};
  priority := "Medium";
  assignee := some_user;
  updated := Naive 0;
  resolved := None;
  labels := Some [];
  blockers := [];
  rag_status := None;
  rag_reason := None;
  days_in_status := Some 1%Z;
  is_blocked := false
|}.

(** In a development status, unassigned, with a risk-free label and an
    unknown age. *)
Definition unknown_age_issue : Issue := {|
  key := "TEST-4";
  status := Some {| id := "3"; name := "Coding"; category := "indeterminate" |};
  priority := "Medium";
  assignee := None;
  updated := Naive 0;
  resolved := None;
  labels := Some ["backend"];
  blockers := [];
  rag_status := None;
  rag_reason := None;
  days_in_status := None;
  is_blocked := false
|}.

(** Open for a hundred days, otherwise unremarkable. *)
Definition stale_issue : Issue := {|
  key := "TEST-5";
  status := Some {| id := "2"; name := "Open"; category := "new" |};
  priority := "Medium";
  assignee := some_user;
  updated := Naive 0;
  resolved := None;
  labels := Some ["backend"];
  blockers := [];
  rag_status := None;
  rag_reason := None;
  days_in_status := Some 100%Z;
  is_blocked := false
|}.

(** A record whose status was cleared after validation. *)
Definition malformed_issue : Issue := {|
  key := "TEST-6";
  status := None;
  priority := "Medium";
  assignee := some_user;
  updated := Naive 0;
  resolved := None;
  labels := Some [];
  blockers := [];
  rag_status := None;
  rag_reason := None;
  days_in_status := Some 2%Z;
  is_blocked := false
|}.

(** Three objects; the second one is malformed. *)
Definition example_store : gmap rag_classifier.loc Issue :=
  <[0 := sample_issue]> (<[1 := malformed_issue]> (<[2 := fresh_high_issue]> ∅)).

(** The sample issue with a verdict written on it. *)
Definition rated (s : RAGStatus) : Issue :=
  rag_classifier.set_rag sample_issue s "n/a".

(** Two AMBER issues among seven GREEN ones. *)
Definition mixed_issues : list Issue :=
  replicate 2 (rated AMBER) ++ replicate 7 (rated GREEN).


(** Medium priority, assigned, waiting for a review since yesterday. *)
Definition waiting_issue : Issue := {|
  key := "TEST-8";
  status := Some {| id := "8"; name := "WAITING FOR REVIEW";
                    category := "indeterminate" |};
  priority := "Medium";
  assignee := some_user;
  updated := Naive 0;
  resolved := None;
  labels := Some [];
  blockers := [];
  rag_status := None;
  rag_reason := None;
  days_in_status := Some 1%Z;
  is_blocked := false
|}.

End examples.

(** ** More Python string primitives *)

Module PyStr.

(** [s.startswith(p)] *)
Definition startswith (s p : string) : bool := String.prefix p s.

(** [s.rstrip(c)] for a one-character [c]: drops every trailing [c] *)
Fixpoint rstrip (c : ascii) (s : string) : string :=
  match s with
  | EmptyString => EmptyString
  | String a s' =>
      match rstrip c s' with
      | EmptyString => if Ascii.eqb a c then EmptyString else String a EmptyString
      | String b r => String a (String b r)
      end
  end.

(** [s.split(c)] for a one-character separator [c] *)
Fixpoint split (c : ascii) (s : string) : list string :=
  match s with
  | EmptyString => [EmptyString]
  | String a s' =>
      if Ascii.eqb a c then EmptyString :: split c s'
      else match split c s' with
           | piece :: pieces => String a piece :: pieces
           | [] => [String a EmptyString]
           end
  end.

(** [s.endswith(c)] for a one-character [c] *)
Fixpoint endswith (c : ascii) (s : string) : bool :=
  match s with
  | EmptyString => false
  | String a EmptyString => Ascii.eqb a c
  | String _ s' => endswith c s'
  end.

(** [os.getenv(key, default)] on an environment given as a map *)
Definition getenv (env : gmap string string) (key default_value : string) : string :=
  default default_value (env !! key).

End PyStr.

(** ** The rest of config.py: validation and loading from the environment *)

Module config_loading.
Import PyStr config.

Record JiraConfig : Type := { server : string; email : string; api_token : string }.

Record ReportConfig : Type := {
  default_report_day : string;
  storage_days : Z;
  template_path : option string
}.

Record MCPConfig : Type := { host : string; port : Z }.

Record Config : Type := {
  jira : JiraConfig;
  rag : RAGConfig;
  report : ReportConfig;
  mcp : MCPConfig;
  log_level : string;
  log_file : option string
}.

(** The [ValueError]s of this module, by the place that raises them: the
    server validator (pydantic hands it on as a validation error, itself a
    [ValueError]), [int] on the text of a variable, [Config.validate]. *)
Inductive ConfigError : Type :=
| InvalidServerUrl
| InvalidInt (text : string)
| Incomplete.

Inductive loaded (A : Type) : Type :=
| Loaded (a : A)
| Failed (e : ConfigError).
Arguments Loaded {A} a.
Arguments Failed {A} e.

#[export] Instance loaded_ret : MRet loaded := fun A a => Loaded a.
#[export] Instance loaded_bind : MBind loaded := fun A B f m =>
  match m with
  | Loaded a => f a
  | Failed e => Failed e
  end.

(** [JiraConfig.validate_server_url] *)
Definition validate_server_url (v : string) : loaded string :=
  if negb (startswith v "http://" || startswith v "https://")
  then Failed InvalidServerUrl
  else Loaded (rstrip "/" v).

Section from_environment.

(** The builtin [int] on a string; [None] when it raises. *)
Variable int : string -> option Z.

Definition to_int (text : string) : loaded Z :=
  match int text with
  | Some n => Loaded n
  | None => Failed (InvalidInt text)
  end.

(** [Config.from_env] *)
Definition from_env (env : gmap string string) : loaded Config :=
  server ← validate_server_url (getenv env "JIRA_SERVER" "");
  let jira_config := {|
    server := server;
    email := getenv env "JIRA_EMAIL" "";
    api_token := getenv env "JIRA_API_TOKEN" ""
  |} in
  green ← to_int (getenv env "GREEN_MAX_DAYS" "3");
  yellow ← to_int (getenv env "YELLOW_MAX_DAYS" "7");
  let rag_config := {|
    green_max_days_in_status := green;
    yellow_max_days_in_status := yellow;
    red_priority_levels := split "," (getenv env "RED_PRIORITIES" "Highest,High");
    blocked_statuses := split "," (getenv env "BLOCKED_STATUSES" "Blocked,Waiting")
  |} in
  storage ← to_int (getenv env "REPORT_STORAGE_DAYS" "90");
  let report_config := {|
    default_report_day := getenv env "DEFAULT_REPORT_DAY" "Wednesday";
    storage_days := storage;
    template_path := env !! "TEMPLATE_PATH"
  |} in
  mcp_port ← to_int (getenv env "MCP_SERVER_PORT" "8000");
  let mcp_config := {|
    host := getenv env "MCP_SERVER_HOST" "localhost";
    port := mcp_port
  |} in
  mret {|
    jira := jira_config;
    rag := rag_config;
    report := report_config;
    mcp := mcp_config;
    log_level := getenv env "LOG_LEVEL" "INFO";
    log_file := env !! "LOG_FILE"
  |}.

(** truth value of a string *)
Definition nonempty (s : string) : bool :=
  match s with EmptyString => false | String _ _ => true end.

(** [Config.validate] *)
Definition validate (cfg : Config) : loaded unit :=
  if negb (nonempty (server (jira cfg)) && nonempty (email (jira cfg))
           && nonempty (api_token (jira cfg)))
  then Failed Incomplete
  else Loaded tt.

(** [get_config] *)
Definition get_config (env : gmap string string) : loaded Config :=
  cfg ← from_env env;
  _ ← validate cfg;
  mret cfg.

End from_environment.

End config_loading.

(** ** jira_client.py: building an [Issue] from the fields Jira returns

    [_convert_jira_issue], for the attributes of [Issue] modelled here.  The
    timestamps come in as [datetime.fromisoformat] parsed them, aware when
    the text carries an offset; [now] is the reading of the clock the
    function takes. *)

Module jira_client.
Import Py models.

Record RawUser : Type := {
  accountId : option string;
  user_name : option string;
  user_key : option string;
  displayName : option string
}.

Record RawFields : Type := {
  raw_status_id : string;
  raw_status_name : string;
  raw_status_category : option string;
  raw_priority : option string;
  raw_assignee : option RawUser;
  raw_updated : datetime;
  raw_resolutiondate : option datetime;
  raw_labels : option (list string)
}.

Definition microseconds_of (dt : datetime) : Z :=
  match dt with Naive us => us | Aware us => us end.

(** [(now - updated).days], [now] being the wall-clock reading in
    microseconds: the function takes [datetime.now()] and, for an aware
    [updated], labels that same reading as UTC before it subtracts. *)
Definition days_since (now : Z) (updated : datetime) : Z :=
  ((now - microseconds_of updated) / report_generator.microseconds_per_day)%Z.

Definition convert_user (u : RawUser) : User := {|
  account_id :=
    default (default (default "unknown" (user_key u)) (user_name u)) (accountId u);
  display_name := default (default "Unknown" (user_name u)) (displayName u)
|}.

Definition _convert_jira_issue (issue_key : string) (fields : RawFields)
    (now : Z) : Issue :=
  let status := {|
    id := raw_status_id fields;
    name := raw_status_name fields;
    category := default "Unknown" (raw_status_category fields)
  |} in
  let assignee := convert_user <$> raw_assignee fields in
  let updated := raw_updated fields in
  let resolved := raw_resolutiondate fields in
  let labels := default [] (raw_labels fields) in
  (* Calculate days in status *)
  let days_in_status := days_since now updated in
  (* Check for blockers *)
  let is_blocked :=
    str_in "blocked" (lower (name status)) || str_in "waiting" (lower (name status)) in
  {|
    key := issue_key;
    models.status := Some status;
    priority := default "Unknown" (raw_priority fields);
    assignee := assignee;
    updated := updated;
    resolved := resolved;
    labels := Some labels;
    blockers := [];
    rag_status := None;
    rag_reason := None;
    days_in_status := Some days_in_status;
    is_blocked := is_blocked
  |}.

End jira_client.

(** ** mcp_server.py: the handlers' use of the classifier *)

Module mcp_server.
Import Py models config rag_classifier.

(** The loop of [_handle_get_issues] and [_handle_generate_report]:
    classify each issue and write the verdict on it, with no [try] around
    it.  The result is the store as the loop left it and, when an issue made
    the classifier raise, the exception that ended the loop. *)
Fixpoint classify_loop (cfg : RAGConfig) (issues : list loc) (σ : gmap loc Issue)
  : gmap loc Issue * option PyExc :=
  match issues with
  | [] => (σ, None)
  | l :: rest =>
      match σ !! l with
      | None => classify_loop cfg rest σ
      | Some issue =>
          match classify_issue cfg issue with
          | Return rag_result =>
              classify_loop cfg rest
                (<[l := set_rag issue (status rag_result) (reason rag_result)]> σ)
          | Raise e => (σ, Some e)
          end
      end
  end.

(** [d.weekday()], Monday being 0, on the ordinal of the date *)
Definition weekday (d : date) : Z := ((d + 6) mod 7)%Z.

(** The default week ending of [_handle_generate_report]: last Friday. *)
Definition default_week_ending (today : date) : date :=
  let days_since_friday := ((weekday today + 3) mod 7)%Z in
  (today - days_since_friday)%Z.

End mcp_server.

(** ** main.py: classify, then report *)

Module pipeline.
Import Py models config rag_classifier.

(** The issue objects a list of references points to. *)
Definition deref (σ : gmap loc Issue) (issues : list loc) : list Issue :=
  omap (fun l => σ !! l) issues.

(** [generate_report]: the batch classifier, then the report on the same
    list. *)
Definition classify_and_report (cfg : RAGConfig) (issues : list loc)
    (σ : gmap loc Issue) (week_ending : date) : exc WeeklyReportData :=
  let run := classify_issues_batch cfg issues σ in
  report_generator._categorize_issues_for_report (deref (objects run) issues)
                                                 week_ending.

End pipeline.

(** ** Facts about the Python primitives *)

Module PyFacts.
Import Py.

Lemma truthy_true {A : Type} (l : list A) : truthy l = true <-> l <> [].
Proof. destruct l; simpl; split; congruence. Qed.

Lemma truthy_false {A : Type} (l : list A) : truthy l = false <-> l = [].
Proof. destruct l; simpl; split; congruence. Qed.

Lemma list_in_true (x : string) (l : list string) : list_in x l = true <-> x ∈ l.
Proof.
  unfold list_in. rewrite existsb_exists. split.
  - intros (y & Hy & Heq). apply String.eqb_eq in Heq. subst y.
    by apply list_elem_of_In.
  - intros Hx. exists x. split; [by apply list_elem_of_In | apply String.eqb_refl].
Qed.

Lemma existsb_elem_of {A : Type} (f : A -> bool) (l : list A) :
  existsb f l = true <-> exists x, x ∈ l /\ f x = true.
Proof.
  rewrite existsb_exists. split; intros (x & Hx & Hf); exists x; split; auto;
    by apply list_elem_of_In.
Qed.

Lemma existsb_map {A B : Type} (f : B -> bool) (g : A -> B) (l : list A) :
  existsb f (map g l) = existsb (fun x => f (g x)) l.
Proof. induction l as [|x l IH]; simpl; [done | by rewrite IH]. Qed.

(** A test that cannot raise makes [any] the boolean [existsb]. *)
Lemma any_Return {A : Type} (f : A -> exc bool) (g : A -> bool) (l : list A) :
  (forall x, f x = Return (g x)) -> any f l = Return (existsb g l).
Proof.
  intros Hf. induction l as [|x l IH]; simpl; [done |].
  rewrite Hf. simpl. destruct (g x); [done | exact IH].
Qed.

Lemma found_nonempty (vocabulary ls : list string) :
  List.filter (fun l => existsb (fun w => str_in w (lower l)) vocabulary) ls <> []
  <-> exists l w, l ∈ ls /\ w ∈ vocabulary /\ str_in w (lower l) = true.
Proof.
  split.
  - intros Hne.
    destruct (List.filter _ ls) as [|l fl] eqn:Hfl; [done |].
    assert (Hin : In l (List.filter
              (fun l => existsb (fun w => str_in w (lower l)) vocabulary) ls))
      by (rewrite Hfl; left; done).
    apply filter_In in Hin as [Hl Hex].
    apply existsb_elem_of in Hex as (w & Hw & Hs).
    exists l, w. split; [by apply list_elem_of_In | done].
  - intros (l & w & Hl & Hw & Hs) Hnil.
    assert (Hin : In l (List.filter
              (fun l => existsb (fun w => str_in w (lower l)) vocabulary) ls)).
    { apply filter_In. split; [by apply list_elem_of_In |].
      apply existsb_elem_of. by exists w. }
    rewrite Hnil in Hin. destruct Hin.
Qed.

End PyFacts.

(** ** The classifier on one issue *)

Module classifier_facts.
Import Py models config rag_classifier rules PyFacts.

Lemma status_name_Some (issue : Issue) (st : IssueStatus) :
  models.status issue = Some st -> status_name issue = Return (name st).
Proof. unfold status_name. by intros ->. Qed.

Lemma status_name_has_Some (issue : Issue) (st : IssueStatus) (words : list string) :
  models.status issue = Some st ->
  status_name_has issue words
  = Return (existsb (fun w => str_in w (lower (name st))) words).
Proof.
  intros Hst. unfold status_name_has. apply any_Return.
  intros w. by rewrite (status_name_Some _ _ Hst).
Qed.

Lemma status_has_true (issue : Issue) (st : IssueStatus) (words : list string) :
  models.status issue = Some st ->
  existsb (fun w => str_in w (lower (name st))) (map lower words) = true
  <-> exists w, w ∈ words /\ status_contains issue w.
Proof.
  intros Hst. rewrite existsb_map, existsb_elem_of. unfold status_contains.
  split.
  - intros (w & Hw & Hs). exists w. split; [done |]. by exists st.
  - intros (w & Hw & st' & Hst' & Hs). exists w. split; [done |]. congruence.
Qed.

Lemma days_over_true (issue : Issue) (bound : Z) :
  days_over issue bound = true
  <-> exists d, days_in_status issue = Some d /\ (bound < d)%Z.
Proof.
  unfold days_over. destruct (days_in_status issue) as [d|].
  - rewrite Z.ltb_lt. split; [intros H; by exists d | by intros (d' & [= ->] & H)].
  - split; [done | by intros (d' & [=] & _)].
Qed.

Lemma days_at_most_true (issue : Issue) (bound : Z) :
  days_at_most issue bound = true
  <-> exists d, days_in_status issue = Some d /\ (d <= bound)%Z.
Proof.
  unfold days_at_most. destruct (days_in_status issue) as [d|].
  - rewrite Z.leb_le. split; [intros H; by exists d | by intros (d' & [= ->] & H)].
  - split; [done | by intros (d' & [=] & _)].
Qed.

Lemma red_tests_true cfg issue st ls :
  models.status issue = Some st -> labels issue = Some ls ->
  red_tests cfg issue st ls = true <-> red_condition cfg issue.
Proof.
  intros Hst Hls. unfold red_tests, red_condition, blocked_condition,
    overdue_priority_condition, high_priority, blockers_condition, label_condition.
  rewrite !orb_true_iff, andb_true_iff, !truthy_true, list_in_true, days_over_true.
  rewrite (status_has_true _ _ _ Hst). unfold found_labels.
  rewrite found_nonempty. split.
  - intros [[[[Hb | Hs] | Hp] | Hbl] | (l & w & Hl & Hw & Hs)].
    + left. by left.
    + left. by right.
    + right. by left.
    + right. right. by left.
    + do 3 right. by exists ls, l, w.
  - intros [[Hb | Hs] | [Hp | [Hbl | (ls' & l & w & Hls' & Hl & Hw & Hs)]]].
    + do 4 left. done.
    + do 3 left. by right.
    + do 2 left. by right.
    + left. by right.
    + right. exists l, w. assert (ls' = ls) by congruence. by subst.
Qed.

(** On a validated issue the RED check returns, and it returns a verdict
    exactly when one of the four tests holds; every verdict it returns is
    RED. *)
Lemma check_red_validated cfg issue st ls :
  models.status issue = Some st -> labels issue = Some ls ->
  exists o, _check_red_conditions cfg issue = Return o
            /\ (red_tests cfg issue st ls = true ->
                exists r, o = Some r /\ status r = RED)
            /\ (red_tests cfg issue st ls = false -> o = None).
Proof.
  intros Hst Hls. unfold _check_red_conditions, red_tests.
  rewrite (status_name_has_Some _ _ _ Hst), (status_name_Some _ _ Hst), Hls.
  destruct (is_blocked issue); simpl.
  - eexists. split; [done |]. split; [eauto | done].
  - destruct (existsb _ (map lower (blocked_statuses cfg))); simpl.
    + eexists. split; [done |]. split; [eauto | done].
    + destruct (list_in _ _ && days_over _ _); simpl.
      * eexists. split; [done |]. split; [eauto | done].
      * destruct (truthy (blockers issue)); simpl.
        -- eexists. split; [done |]. split; [eauto | done].
        -- destruct (truthy (found_labels critical_labels ls)); simpl.
           ++ eexists. split; [done |]. split; [eauto | done].
           ++ eexists. split; [done |]. split; [done | done].
Qed.

Lemma lower_development_statuses (w : string) :
  w ∈ development_statuses -> lower w = w.
Proof.
  unfold development_statuses. rewrite !elem_of_cons, elem_of_nil.
  intros [-> | [-> | [-> | [-> | []]]]]; reflexivity.
Qed.

Lemma dev_status_true (issue : Issue) (st : IssueStatus) :
  models.status issue = Some st ->
  existsb (fun w => str_in w (lower (name st))) development_statuses = true
  <-> exists w, w ∈ development_statuses /\ status_contains issue w.
Proof.
  intros Hst. rewrite existsb_elem_of. unfold status_contains. split.
  - intros (w & Hw & Hs). exists w. split; [done |]. exists st.
    by rewrite (lower_development_statuses _ Hw).
  - intros (w & Hw & st' & Hst' & Hs). exists w. split; [done |].
    rewrite (lower_development_statuses _ Hw) in Hs. congruence.
Qed.

Lemma amber_tests_true cfg issue st ls :
  models.status issue = Some st -> labels issue = Some ls ->
  amber_tests cfg issue st ls = true <-> amber_condition cfg issue.
Proof.
  intros Hst Hls. unfold amber_tests, amber_condition, age_condition,
    high_priority, label_condition, unassigned_condition, stalled_condition.
  rewrite !orb_true_iff, !andb_true_iff, truthy_true, list_in_true,
    days_over_true, days_at_most_true, negb_true_iff, bool_decide_eq_false.
  rewrite (dev_status_true _ _ Hst). unfold found_labels.
  rewrite found_nonempty. split.
  - intros [[[[[(d & Hd & Hg) (d' & Hd' & Hy)] | Hp]
             | (l & w & Hl & Hw & Hs)] | [Ha Hd]] | [Hdev Hd]].
    + left. exists d. assert (d' = d) by congruence. by subst.
    + eauto.
    + right. right. left. by exists ls, l, w.
    + right. right. right. left. split; [| done].
      destruct (assignee issue); [| done]. destruct Ha. by eexists.
    + do 4 right. done.
  - intros [(d & Hd & Hg & Hy) | [Hp | [(ls' & l & w & Hls' & Hl & Hw & Hs)
             | [[Ha Hd] | [Hdev Hd]]]]].
    + do 4 left. split; by exists d.
    + eauto.
    + do 2 left. right. exists l, w. assert (ls' = ls) by congruence. by subst.
    + left. right. split; [| done]. rewrite Ha. by intros [? [=]].
    + right. done.
Qed.

(** The AMBER check likewise: it returns on a validated issue, with a
    verdict exactly when one of its tests holds, and the verdict is AMBER. *)
Lemma check_amber_validated cfg issue st ls :
  models.status issue = Some st -> labels issue = Some ls ->
  exists o, _check_amber_conditions cfg issue = Return o
            /\ (amber_tests cfg issue st ls = true ->
                exists r, o = Some r /\ status r = AMBER)
            /\ (amber_tests cfg issue st ls = false -> o = None).
Proof.
  intros Hst Hls. unfold _check_amber_conditions, amber_tests.
  rewrite (status_name_has_Some _ _ _ Hst), (status_name_Some _ _ Hst), Hls.
  destruct (days_over issue (green_max_days_in_status cfg)
            && days_at_most issue (yellow_max_days_in_status cfg)); simpl.
  - eexists. split; [done |]. split; [eauto | done].
  - destruct (list_in (priority issue) (red_priority_levels cfg)); simpl.
    + eexists. split; [done |]. split; [eauto | done].
    + destruct (truthy (found_labels risk_labels ls)); simpl.
      * eexists. split; [done |]. split; [eauto | done].
      * destruct (negb (bool_decide (is_Some (assignee issue)))
                  && days_over issue (green_max_days_in_status cfg)); simpl.
        -- eexists. split; [done |]. split; [eauto | done].
        -- match goal with
           | |- context [if ?c then _ else _] => destruct c
           end; simpl.
           ++ eexists. split; [done |]. split; [eauto | done].
           ++ eexists. split; [done |]. split; [done | done].
Qed.

(** [classify_issue] on a validated issue: always a verdict, RED when a
    RED test holds, else AMBER when an AMBER test holds, else the fixed
    GREEN verdict. *)
Lemma classify_validated cfg issue st ls :
  models.status issue = Some st -> labels issue = Some ls ->
  exists r, classify_issue cfg issue = Return r
    /\ (red_tests cfg issue st ls = true -> status r = RED)
    /\ (red_tests cfg issue st ls = false ->
        amber_tests cfg issue st ls = true -> status r = AMBER)
    /\ (red_tests cfg issue st ls = false ->
        amber_tests cfg issue st ls = false -> r = green_result).
Proof.
  intros Hst Hls. unfold classify_issue.
  destruct (check_red_validated cfg issue st ls Hst Hls) as (o & -> & Hred & Hnred).
  destruct (red_tests cfg issue st ls); simpl.
  - destruct (Hred eq_refl) as (r & -> & Hr). exists r. by repeat split.
  - rewrite (Hnred eq_refl).
    destruct (check_amber_validated cfg issue st ls Hst Hls)
      as (o' & -> & Hamber & Hnamber).
    destruct (amber_tests cfg issue st ls); simpl.
    + destruct (Hamber eq_refl) as (r & -> & Hr). exists r. by repeat split.
    + rewrite (Hnamber eq_refl). exists green_result. by repeat split.
Qed.

End classifier_facts.

(** ** Claims about [classify_issue] *)

Module classification.
Import Py models config rag_classifier rules PyFacts classifier_facts examples.

Lemma validated_inv (issue : Issue) :
  validated issue ->
  exists st ls, models.status issue = Some st /\ labels issue = Some ls.
Proof. intros [[st Hst] [ls Hls]]. by exists st, ls. Qed.

Lemma is_blocked_red_condition cfg issue :
  is_blocked issue = true -> red_condition cfg issue.
Proof. intros Hb. left. by left. Qed.

(** C1.  Rule precedence: a validated issue that meets any RED condition is
    classified RED, whichever AMBER conditions it also meets; in
    particular an issue with [is_blocked] set is RED whatever its other
    fields are. *)
Theorem red_takes_precedence (cfg : RAGConfig) (issue : Issue) :
  validated issue ->
  (red_condition cfg issue ->
     exists r, classify_issue cfg issue = Return r /\ status r = RED)
  /\ (is_blocked issue = true ->
     exists r, classify_issue cfg issue = Return r /\ status r = RED).
Proof.
  intros Hv. destruct (validated_inv _ Hv) as (st & ls & Hst & Hls).
  destruct (classify_validated cfg issue st ls Hst Hls) as (r & Hr & Hred & _).
  assert (Hmain : red_condition cfg issue ->
            exists r, classify_issue cfg issue = Return r /\ status r = RED).
  { intros Hc. exists r. split; [done |].
    apply Hred. by apply red_tests_true. }
  split; [done |]. intros Hb. by apply Hmain, is_blocked_red_condition.
Qed.

Lemma red_takes_precedence_witness :
  validated blocked_unassigned_issue
  /\ red_condition default_RAGConfig blocked_unassigned_issue
  /\ amber_condition default_RAGConfig blocked_unassigned_issue
  /\ exists r, classify_issue default_RAGConfig blocked_unassigned_issue = Return r
               /\ status r = RED.
Proof.
  assert (Hv : validated blocked_unassigned_issue)
    by (split; eexists; reflexivity).
  split; [exact Hv |].
  assert (Hred : red_condition default_RAGConfig blocked_unassigned_issue)
    by (left; left; reflexivity).
  split; [exact Hred |].
  split.
  - right. right. right. left. split; [reflexivity |].
    exists 10%Z. split; [reflexivity | simpl; lia].
  - exact (proj1 (red_takes_precedence default_RAGConfig
                    blocked_unassigned_issue Hv) Hred).
Defined.

(** C2.  A validated issue whose priority is in [red_priority_levels] is
    never GREEN: it is RED when its age is known and exceeds the yellow
    threshold, or when another RED condition holds, and AMBER in every
    other case, whatever [days_in_status] is. *)
Theorem high_priority_never_green (cfg : RAGConfig) (issue : Issue) :
  validated issue -> high_priority cfg issue ->
  exists r, classify_issue cfg issue = Return r
    /\ status r <> GREEN
    /\ ((exists d, days_in_status issue = Some d
                   /\ (yellow_max_days_in_status cfg < d)%Z) -> status r = RED)
    /\ (red_condition cfg issue -> status r = RED)
    /\ (~ red_condition cfg issue -> status r = AMBER).
Proof.
  intros Hv Hp. destruct (validated_inv _ Hv) as (st & ls & Hst & Hls).
  destruct (classify_validated cfg issue st ls Hst Hls)
    as (r & Hr & Hred & Hamber & _).
  assert (Ha : amber_tests cfg issue st ls = true).
  { apply amber_tests_true; [done | done |]. right. by left. }
  assert (Hredc : red_condition cfg issue -> status r = RED).
  { intros Hc. apply Hred. by apply red_tests_true. }
  assert (Hnredc : ~ red_condition cfg issue -> status r = AMBER).
  { intros Hc. apply Hamber; [| done].
    destruct (red_tests cfg issue st ls) eqn:Ht; [| done].
    destruct Hc. by apply (red_tests_true cfg issue st ls). }
  exists r. split; [done |]. split; [| split; [| split; done]].
  - destruct (red_tests cfg issue st ls) eqn:Ht.
    + rewrite (Hred eq_refl). done.
    + rewrite (Hamber eq_refl Ha). done.
  - intros Hd. apply Hredc. right. left. by split.
Qed.

Lemma high_priority_never_green_witness :
  exists r, classify_issue default_RAGConfig fresh_high_issue = Return r
            /\ status r = AMBER.
Proof.
  assert (Hv : validated fresh_high_issue) by (split; eexists; reflexivity).
  assert (Hp : high_priority default_RAGConfig fresh_high_issue).
  { unfold high_priority. simpl. set_solver. }
  destruct (high_priority_never_green default_RAGConfig fresh_high_issue Hv Hp)
    as (r & Hr & _ & _ & _ & Hamber).
  exists r. split; [exact Hr |]. apply Hamber.
  intros [[Hb | (w & Hw & st & Hst & Hs)]
         | [(_ & d & Hd & Hlt) | [Hbl | (ls & l & w & Hls & Hl & _)]]].
  - discriminate Hb.
  - injection Hst as <-. simpl in Hw.
    apply elem_of_cons in Hw as [-> | Hw]; [discriminate Hs |].
    apply elem_of_cons in Hw as [-> | Hw]; [discriminate Hs |].
    by apply elem_of_nil in Hw.
  - injection Hd as <-. simpl in Hlt. lia.
  - by apply Hbl.
  - injection Hls as <-. by apply elem_of_nil in Hl.
Defined.

Lemma days_unknown_over (issue : Issue) (bound : Z) :
  days_in_status issue = None -> days_over issue bound = false.
Proof. unfold days_over. by intros ->. Qed.

Lemma days_unknown_at_most (issue : Issue) (bound : Z) :
  days_in_status issue = None -> days_at_most issue bound = false.
Proof. unfold days_at_most. by intros ->. Qed.

Lemma classify_unknown_age_thresholds cfg issue green_max yellow_max :
  days_in_status issue = None ->
  classify_issue (with_thresholds cfg green_max yellow_max) issue
  = classify_issue cfg issue.
Proof.
  intros Hd. unfold classify_issue, _check_red_conditions,
    _check_amber_conditions, with_thresholds. simpl.
  rewrite !(days_unknown_over _ _ Hd), !(days_unknown_at_most _ _ Hd).
  rewrite !andb_false_r. reflexivity.
Qed.

(** C4.  With [days_in_status] unknown no day-threshold rule fires: the
    verdict does not depend on the two thresholds, the conditions of rules
    1b, 2a, 2d and 2e are all false, and a RED or AMBER verdict of a
    validated issue is owed to an age-independent condition. *)
Theorem unknown_age_fires_no_day_rule (cfg : RAGConfig) (issue : Issue) :
  days_in_status issue = None ->
  (forall green_max yellow_max,
      classify_issue (with_thresholds cfg green_max yellow_max) issue
      = classify_issue cfg issue)
  /\ ~ overdue_priority_condition cfg issue
  /\ ~ age_condition cfg issue
  /\ ~ unassigned_condition cfg issue
  /\ ~ stalled_condition cfg issue
  /\ (validated issue ->
      exists r, classify_issue cfg issue = Return r
        /\ (status r = RED ->
            blocked_condition cfg issue \/ blockers_condition issue
            \/ label_condition issue critical_labels)
        /\ (status r = AMBER ->
            high_priority cfg issue \/ label_condition issue risk_labels)).
Proof.
  intros Hd.
  assert (Hno : forall P : Z -> Prop,
             ~ exists d, days_in_status issue = Some d /\ P d).
  { intros P (d & Hd' & _). congruence. }
  split; [intros g y; by apply classify_unknown_age_thresholds |].
  split; [intros [_ H]; by apply (Hno _ H) |].
  split; [intros (d & Hd' & _); congruence |].
  split; [intros [_ H]; by apply (Hno _ H) |].
  split; [intros [_ H]; by apply (Hno _ H) |].
  intros Hv. destruct (validated_inv _ Hv) as (st & ls & Hst & Hls).
  destruct (classify_validated cfg issue st ls Hst Hls)
    as (r & Hr & Hred & Hamber & Hgreen).
  exists r. split; [done |].
  destruct (red_tests cfg issue st ls) eqn:Hrt.
  - split.
    + intros _. apply (red_tests_true cfg issue st ls Hst Hls) in Hrt.
      destruct Hrt as [Hb | [[_ H] | [Hbl | Hl]]]; auto.
      destruct (Hno _ H).
    + rewrite (Hred eq_refl). done.
  - destruct (amber_tests cfg issue st ls) eqn:Hat.
    + split; [rewrite (Hamber eq_refl eq_refl); done |].
      intros _. apply (amber_tests_true cfg issue st ls Hst Hls) in Hat.
      destruct Hat as [(d & Hd' & _) | [Hp | [Hl | [[_ H] | [_ H]]]]]; auto;
        try congruence; destruct (Hno _ H).
    + rewrite (Hgreen eq_refl eq_refl). split; done.
Qed.

Lemma unknown_age_fires_no_day_rule_witness :
  days_in_status unknown_age_issue = None
  /\ validated unknown_age_issue
  /\ classify_issue default_RAGConfig unknown_age_issue = Return green_result
  /\ classify_issue (with_thresholds default_RAGConfig (-1) (-1)) unknown_age_issue
     = classify_issue default_RAGConfig unknown_age_issue.
Proof.
  split; [reflexivity |].
  split; [split; eexists; reflexivity |].
  split; [reflexivity |].
  exact (proj1 (unknown_age_fires_no_day_rule default_RAGConfig
                  unknown_age_issue eq_refl) (-1)%Z (-1)%Z).
Defined.

(** C10.  Age beyond the yellow threshold raises no risk by itself: a
    validated issue older than [yellow_max_days_in_status] that is not
    blocked, has no blockers, no listed priority, no critical or risk label,
    an assignee, and no development word in its status name is GREEN; the
    condition of the AMBER age rule is false for it. *)
Theorem stale_issue_is_green (cfg : RAGConfig) (issue : Issue) (d : Z) :
  validated issue ->
  days_in_status issue = Some d ->
  (yellow_max_days_in_status cfg < d)%Z ->
  is_blocked issue = false ->
  (forall w, w ∈ blocked_statuses cfg -> ~ status_contains issue w) ->
  blockers issue = [] ->
  ~ high_priority cfg issue ->
  ~ label_condition issue critical_labels ->
  ~ label_condition issue risk_labels ->
  is_Some (assignee issue) ->
  (forall w, w ∈ development_statuses -> ~ status_contains issue w) ->
  classify_issue cfg issue = Return green_result
  /\ ~ age_condition cfg issue.
Proof.
  intros Hv Hd Hy Hb Hs Hbl Hp Hcl Hrl Ha Hdev.
  assert (Hage : ~ age_condition cfg issue).
  { intros (d' & Hd' & _ & Hle). assert (d' = d) by congruence. lia. }
  split; [| done].
  destruct (validated_inv _ Hv) as (st & ls & Hst & Hls).
  destruct (classify_validated cfg issue st ls Hst Hls)
    as (r & Hr & _ & _ & Hgreen).
  rewrite Hr. f_equal. apply Hgreen.
  - destruct (red_tests cfg issue st ls) eqn:Ht; [| done].
    apply (red_tests_true cfg issue st ls Hst Hls) in Ht.
    destruct Ht as [[Hb' | (w & Hw & Hc)] | [[Hp' _] | [Hbl' | Hl]]].
    + congruence.
    + destruct (Hs w Hw Hc).
    + destruct (Hp Hp').
    + destruct (Hbl' Hbl).
    + destruct (Hcl Hl).
  - destruct (amber_tests cfg issue st ls) eqn:Ht; [| done].
    apply (amber_tests_true cfg issue st ls Hst Hls) in Ht.
    destruct Ht as [Hage' | [Hp' | [Hl | [[Ha' _] | [(w & Hw & Hc) _]]]]].
    + destruct (Hage Hage').
    + destruct (Hp Hp').
    + destruct (Hrl Hl).
    + rewrite Ha' in Ha. by destruct Ha.
    + destruct (Hdev w Hw Hc).
Qed.

Lemma stale_issue_is_green_witness :
  validated stale_issue
  /\ days_in_status stale_issue = Some 100%Z
  /\ classify_issue default_RAGConfig stale_issue = Return green_result.
Proof.
  assert (Hv : validated stale_issue) by (split; eexists; reflexivity).
  split; [exact Hv |]. split; [reflexivity |].
  assert (Hred : ~ red_condition default_RAGConfig stale_issue).
  { intros Hc.
    apply (red_tests_true default_RAGConfig stale_issue _ _ eq_refl eq_refl) in Hc.
    discriminate Hc. }
  assert (Hamber : ~ amber_condition default_RAGConfig stale_issue).
  { intros Hc.
    apply (amber_tests_true default_RAGConfig stale_issue _ _ eq_refl eq_refl) in Hc.
    discriminate Hc. }
  refine (proj1 (stale_issue_is_green default_RAGConfig stale_issue 100
                   Hv eq_refl _ eq_refl _ eq_refl _ _ _ _ _)).
  - simpl. lia.
  - intros w Hw Hc. apply Hred. left. right. by exists w.
  - intros Hp. apply Hamber. right. by left.
  - intros Hl. apply Hred. do 3 right. done.
  - intros Hl. apply Hamber. do 2 right. by left.
  - by eexists.
  - intros w Hw Hc. apply Hamber. do 4 right. split; [by exists w |].
    exists 100%Z. split; [reflexivity | simpl; lia].
Defined.

Lemma status_word_red cfg issue w :
  validated issue -> w ∈ blocked_statuses cfg -> status_contains issue w ->
  exists r, classify_issue cfg issue = Return r /\ status r = RED.
Proof.
  intros Hv Hw Hc.
  destruct (validated_inv _ Hv) as (st & ls & Hst & Hls).
  destruct (classify_validated cfg issue st ls Hst Hls) as (r & Hr & Hred & _).
  exists r. split; [done |]. apply Hred.
  apply (red_tests_true cfg issue st ls Hst Hls). left. right. by exists w.
Qed.

(** C3.  The default of [RAGConfig] in config.py lists "Blocked" and
    "Waiting" only, while the default of [RAGConfig] in enhanced_config.py
    lists the three words of the claim.  An issue on hold is therefore GREEN
    under the first default and RED under the second. *)
Theorem on_hold_default_divergence :
  blocked_statuses default_RAGConfig = ["Blocked"; "Waiting"]
  /\ blocked_statuses enhanced_config.default_RAGConfig
     = ["Blocked"; "Waiting"; "On Hold"]
  /\ validated on_hold_issue
  /\ status_contains on_hold_issue "On Hold"
  /\ classify_issue default_RAGConfig on_hold_issue = Return green_result
  /\ classify_issue enhanced_config.default_RAGConfig on_hold_issue
     = Return (result RED "Issue is in blocked status: On Hold").
Proof.
  split; [reflexivity |]. split; [reflexivity |].
  split; [split; eexists; reflexivity |].
  split; [eexists; split; reflexivity |].
  split; reflexivity.
Qed.

(** With "On Hold" among the blocked statuses, as in the claim's
    vocabulary, every validated issue whose status name contains "on hold",
    ignoring case, is RED. *)
Lemma on_hold_listed_is_red (cfg : RAGConfig) (issue : Issue) :
  validated issue -> "On Hold" ∈ blocked_statuses cfg ->
  status_contains issue "On Hold" ->
  exists r, classify_issue cfg issue = Return r /\ status r = RED.
Proof. intros Hv Hw Hc. by apply (status_word_red cfg issue "On Hold" Hv). Qed.

End classification.

(** ** The batch classifier *)

Module batch_facts.
Import Py models config rag_classifier batch_view.

(** The classifier reads neither [rag_status] nor [rag_reason]. *)
Lemma classify_issue_inputs cfg issue :
  classify_issue cfg (inputs issue) = classify_issue cfg issue.
Proof. reflexivity. Qed.

Lemma classify_issue_set_rag cfg issue s r :
  classify_issue cfg (set_rag issue s r) = classify_issue cfg issue.
Proof. reflexivity. Qed.

Lemma inputs_set_rag issue s r : inputs (set_rag issue s r) = inputs issue.
Proof. reflexivity. Qed.

Lemma verdict_inputs cfg i i' : inputs i = inputs i' -> verdict cfg i = verdict cfg i'.
Proof.
  intros H. unfold verdict.
  by rewrite <- (classify_issue_inputs cfg i), H, classify_issue_inputs.
Qed.

Lemma key_inputs i i' : inputs i = inputs i' -> key i = key i'.
Proof. intros H. change (key (inputs i) = key (inputs i')). by rewrite H. Qed.

Lemma error_lines_inputs cfg i i' :
  inputs i = inputs i' -> error_lines cfg i = error_lines cfg i'.
Proof.
  intros H. unfold error_lines.
  rewrite <- (classify_issue_inputs cfg i), <- (classify_issue_inputs cfg i'), H.
  by rewrite (key_inputs _ _ H).
Qed.

Lemma inputs_classified cfg issue : inputs (classified cfg issue) = inputs issue.
Proof. reflexivity. Qed.

Lemma classified_idemp cfg issue :
  classified cfg (classified cfg issue) = classified cfg issue.
Proof.
  unfold classified at 1.
  rewrite (verdict_inputs cfg _ _ (inputs_classified cfg issue)). reflexivity.
Qed.

(** One round of the loop, in terms of [verdict], [classified] and
    [error_lines]. *)
Lemma classify_one_eq cfg st l :
  classify_one cfg st l =
  match objects st !! l with
  | None => st
  | Some issue => {|
      results := <[key issue := verdict cfg issue]> (results st);
      objects := <[l := classified cfg issue]> (objects st);
      errors_logged := errors_logged st ++ error_lines cfg issue
    |}
  end.
Proof.
  unfold classify_one, classified, verdict, error_lines.
  destruct (objects st !! l) as [issue|]; [| done].
  destruct (classify_issue cfg issue); [| done].
  by rewrite app_nil_r.
Qed.

Lemma objects_classify_one cfg st l l' :
  objects (classify_one cfg st l) !! l' =
  if decide (l' = l) then classified cfg <$> objects st !! l'
  else objects st !! l'.
Proof.
  rewrite classify_one_eq.
  destruct (objects st !! l) as [issue|] eqn:Hl; simpl.
  - destruct (decide (l' = l)) as [-> | Hne].
    + by rewrite lookup_insert_eq, Hl.
    + by rewrite lookup_insert_ne.
  - destruct (decide (l' = l)) as [-> | Hne]; [by rewrite Hl | done].
Qed.

(** The store after the loop: every listed object carries its verdict,
    every other object is untouched. *)
Lemma objects_foldl cfg (ls : list loc) st l :
  objects (foldl (classify_one cfg) st ls) !! l =
  if decide (l ∈ ls) then classified cfg <$> objects st !! l
  else objects st !! l.
Proof.
  revert st. induction ls as [|l0 ls IH]; intros st; simpl.
  - destruct (decide (l ∈ [])) as [Hin | _]; [by apply elem_of_nil in Hin | done].
  - rewrite IH, objects_classify_one.
    destruct (decide (l = l0)) as [-> | Hne].
    + destruct (decide (l0 ∈ l0 :: ls)) as [_ | Hnin]; [| destruct Hnin; left].
      destruct (decide (l0 ∈ ls)); [| done].
      destruct (objects st !! l0) as [issue|]; simpl; [| done].
      by rewrite classified_idemp.
    + destruct (decide (l ∈ ls)) as [Hin | Hnin].
      * destruct (decide (l ∈ l0 :: ls)) as [_ | Hnin]; [done |].
        destruct Hnin. by right.
      * destruct (decide (l ∈ l0 :: ls)) as [Hin | _]; [| done].
        apply elem_of_cons in Hin as [? | ?]; done.
Qed.

(** The [results] dict and the log after the loop, read off the store
    [σ0] the loop started from (or any store with the same inputs). *)
Lemma results_foldl cfg (σ0 : gmap loc Issue) (ls : list loc) st :
  (forall l, inputs <$> objects st !! l = inputs <$> σ0 !! l) ->
  results (foldl (classify_one cfg) st ls)
  = foldl (add_entry cfg σ0) (results st) ls
  /\ errors_logged (foldl (classify_one cfg) st ls)
     = errors_logged st ++ concat (map (logged cfg σ0) ls).
Proof.
  revert st. induction ls as [|l0 ls IH]; intros st Hst; simpl.
  - by rewrite app_nil_r.
  - assert (Hst' : forall l, inputs <$> objects (classify_one cfg st l0) !! l
                             = inputs <$> σ0 !! l).
    { intros l. rewrite objects_classify_one.
      destruct (decide (l = l0)) as [-> | _]; [| apply Hst].
      rewrite <- Hst. destruct (objects st !! l0); [| done].
      simpl. by rewrite inputs_classified. }
    destruct (IH _ Hst') as [-> ->].
    assert (Hone : results (classify_one cfg st l0)
                   = add_entry cfg σ0 (results st) l0
                   /\ errors_logged (classify_one cfg st l0)
                      = errors_logged st ++ logged cfg σ0 l0).
    { rewrite classify_one_eq. unfold add_entry, logged.
      specialize (Hst l0).
      destruct (objects st !! l0) as [i|], (σ0 !! l0) as [i0|];
        simpl in Hst; try discriminate Hst; [| by rewrite app_nil_r].
      assert (Hi : inputs i = inputs i0) by congruence.
      by rewrite (verdict_inputs cfg i i0 Hi), (key_inputs i i0 Hi),
        (error_lines_inputs cfg i i0 Hi). }
    destruct Hone as [-> ->]. by rewrite <- app_assoc.
Qed.

Lemma batch_results cfg ls σ :
  results (classify_issues_batch cfg ls σ) = foldl (add_entry cfg σ) ∅ ls.
Proof. unfold classify_issues_batch. by apply (results_foldl cfg σ). Qed.

Lemma batch_log cfg ls σ :
  errors_logged (classify_issues_batch cfg ls σ) = concat (map (logged cfg σ) ls).
Proof. unfold classify_issues_batch. by apply (results_foldl cfg σ). Qed.

Lemma batch_objects cfg ls σ l :
  objects (classify_issues_batch cfg ls σ) !! l =
  if decide (l ∈ ls) then classified cfg <$> σ !! l else σ !! l.
Proof. unfold classify_issues_batch. by rewrite objects_foldl. Qed.

Lemma foldl_add_entry_snoc cfg σ m ls l :
  foldl (add_entry cfg σ) m (ls ++ [l])
  = add_entry cfg σ (foldl (add_entry cfg σ) m ls) l.
Proof. by rewrite foldl_app. Qed.

(** A key of a listed object is in [results]. *)
Lemma results_is_Some cfg σ (ls : list loc) m l issue :
  l ∈ ls -> σ !! l = Some issue ->
  is_Some (foldl (add_entry cfg σ) m ls !! key issue).
Proof.
  induction ls as [|l1 ls IH] using rev_ind; intros Hin Hl.
  - by apply elem_of_nil in Hin.
  - rewrite foldl_add_entry_snoc. unfold add_entry at 1.
    destruct (σ !! l1) as [i1|] eqn:Hl1.
    + destruct (decide (key i1 = key issue)) as [<- | Hne].
      * rewrite lookup_insert_eq. by eexists.
      * rewrite lookup_insert_ne by done. apply IH; [| done].
        apply elem_of_app in Hin as [? | Hin]; [done |].
        apply list_elem_of_singleton in Hin. congruence.
    + apply IH; [| done].
      apply elem_of_app in Hin as [? | Hin]; [done |].
      apply list_elem_of_singleton in Hin. congruence.
Qed.

(** When every listed object with the key [k] has the verdict [v], and
    there is one, [results[k]] is [v]. *)
Lemma results_lookup cfg σ (ls : list loc) m k v :
  (exists l issue, l ∈ ls /\ σ !! l = Some issue /\ key issue = k) ->
  (forall l issue, l ∈ ls -> σ !! l = Some issue -> key issue = k ->
                   verdict cfg issue = v) ->
  foldl (add_entry cfg σ) m ls !! k = Some v.
Proof.
  induction ls as [|l1 ls IH] using rev_ind; intros (l & issue & Hin & Hl & Hk) Hall.
  - by apply elem_of_nil in Hin.
  - rewrite foldl_add_entry_snoc. unfold add_entry at 1.
    assert (Hall' : forall l issue, l ∈ ls -> σ !! l = Some issue ->
                      key issue = k -> verdict cfg issue = v).
    { intros l' i' Hin'. apply Hall. apply elem_of_app. by left. }
    assert (Hlast : l1 ∈ ls ++ [l1]).
    { apply elem_of_app. right. by apply list_elem_of_singleton. }
    destruct (σ !! l1) as [i1|] eqn:Hl1.
    + destruct (decide (key i1 = k)) as [Hk1 | Hne].
      * rewrite <- Hk1, lookup_insert_eq. f_equal. by apply (Hall l1).
      * rewrite lookup_insert_ne by done. apply IH; [| done].
        exists l, issue. split; [| done].
        apply elem_of_app in Hin as [? | Hin]; [done |].
        apply list_elem_of_singleton in Hin. congruence.
    + apply IH; [| done]. exists l, issue. split; [| done].
      apply elem_of_app in Hin as [? | Hin]; [done |].
      apply list_elem_of_singleton in Hin. congruence.
Qed.

End batch_facts.

(** ** Claims about [classify_issues_batch] *)

Module batch_claims.
Import Py models config rag_classifier batch_view batch_facts examples.

(** C5.  When the classifier raises on a listed issue, the batch goes on:
    that issue gets [rag_status] AMBER and a reason that quotes the error,
    [results] maps its key (when no other listed issue has that key) to the
    AMBER verdict with that reason and confidence 0.0, and every listed
    issue, before or after it, carries its own verdict and has its key in
    [results]. *)
Theorem batch_survives_errors (cfg : RAGConfig) (ls : list loc)
    (σ : gmap loc Issue) (l : loc) (issue : Issue) (e : PyExc) :
  l ∈ ls -> σ !! l = Some issue -> classify_issue cfg issue = Raise e ->
  let run := classify_issues_batch cfg ls σ in
  let degraded := {| status := AMBER;
                     reason := "Classification error: " +:+ str_exc e;
                     confidence := 0.0 |} in
  objects run !! l = Some (set_rag issue AMBER (reason degraded))
  /\ ((forall l' i', l' ∈ ls -> σ !! l' = Some i' -> key i' = key issue -> l' = l) ->
      results run !! key issue = Some degraded)
  /\ (forall l' i', l' ∈ ls -> σ !! l' = Some i' ->
        objects run !! l' = Some (classified cfg i')
        /\ rag_status (classified cfg i') = Some (status (verdict cfg i'))
        /\ rag_reason (classified cfg i') = Some (reason (verdict cfg i'))
        /\ is_Some (results run !! key i')).
Proof.
  intros Hin Hl He run degraded.
  assert (Hv : verdict cfg issue = degraded).
  { unfold verdict. by rewrite He. }
  assert (Hobj : forall l' i', l' ∈ ls -> σ !! l' = Some i' ->
                   objects run !! l' = Some (classified cfg i')).
  { intros l' i' Hin' Hl'. unfold run. rewrite batch_objects.
    destruct (decide (l' ∈ ls)); [| done]. by rewrite Hl'. }
  split; [| split].
  - rewrite (Hobj l issue Hin Hl). unfold classified. by rewrite Hv.
  - intros Huniq. unfold run. rewrite batch_results.
    apply results_lookup; [by exists l, issue |].
    intros l' i' Hin' Hl' Hk. assert (l' = l) by eauto. subst l'.
    assert (i' = issue) by congruence. by subst i'.
  - intros l' i' Hin' Hl'. split; [by apply Hobj |].
    split; [done |]. split; [done |].
    unfold run. rewrite batch_results. by apply (results_is_Some cfg σ ls ∅ l').
Qed.

Lemma batch_survives_errors_witness :
  let run := classify_issues_batch default_RAGConfig [0; 1; 2] example_store in
  let e := AttributeError "'NoneType' object has no attribute 'name'" in
  classify_issue default_RAGConfig malformed_issue = Raise e
  /\ objects run !! 1
     = Some (set_rag malformed_issue AMBER ("Classification error: " +:+ str_exc e))
  /\ results run !! "TEST-6" = Some (error_result e)
  /\ objects run !! 2 = Some (classified default_RAGConfig fresh_high_issue).
Proof.
  intros run e.
  assert (Hin : 1 ∈ [0; 1; 2]) by (right; left).
  assert (Hl : example_store !! 1 = Some malformed_issue) by reflexivity.
  assert (He : classify_issue default_RAGConfig malformed_issue = Raise e)
    by reflexivity.
  destruct (batch_survives_errors default_RAGConfig [0; 1; 2] example_store 1
              malformed_issue e Hin Hl He) as (Hobj & Hres & Hall).
  split; [exact He |]. split; [exact Hobj |]. split.
  - apply Hres. intros l' i' Hin' Hl' Hk.
    apply elem_of_cons in Hin' as [-> | Hin'].
    { injection Hl' as <-. discriminate Hk. }
    apply elem_of_cons in Hin' as [-> | Hin']; [reflexivity |].
    apply list_elem_of_singleton in Hin' as ->.
    injection Hl' as <-. discriminate Hk.
  - apply (Hall 2 fresh_high_issue); [right; right; left | reflexivity].
Defined.

(** C9.  The batch is idempotent: run again on the same list, over the
    store the first run left, it returns the same [results] dict and
    leaves every object, with its [rag_status] and [rag_reason], as the
    first run left it; the classifier reads neither field it writes. *)
Theorem batch_idempotent (cfg : RAGConfig) (ls : list loc) (σ : gmap loc Issue) :
  let first := classify_issues_batch cfg ls σ in
  let second := classify_issues_batch cfg ls (objects first) in
  results second = results first
  /\ objects second = objects first
  /\ errors_logged second = errors_logged first
  /\ (forall issue s r,
        classify_issue cfg (set_rag issue s r) = classify_issue cfg issue).
Proof.
  intros first second.
  assert (Hsame : forall l, inputs <$> objects first !! l = inputs <$> σ !! l).
  { intros l. unfold first. rewrite batch_objects.
    destruct (decide (l ∈ ls)); [| done].
    destruct (σ !! l); [| done]. simpl. by rewrite inputs_classified. }
  destruct (results_foldl cfg σ ls
              {| results := ∅; objects := objects first; errors_logged := [] |}
              Hsame) as [Hres Hlog].
  split; [| split; [| split]].
  - unfold second, classify_issues_batch at 1. rewrite Hres.
    unfold first. by rewrite batch_results.
  - apply map_eq. intros l. unfold second. rewrite batch_objects.
    destruct (decide (l ∈ ls)) as [Hin | Hnin]; [| done].
    unfold first. rewrite batch_objects.
    destruct (decide (l ∈ ls)); [| done].
    destruct (σ !! l); [| done]. simpl. by rewrite classified_idemp.
  - unfold second, classify_issues_batch at 1. rewrite Hlog.
    unfold first. by rewrite batch_log.
  - intros issue s r. apply classify_issue_set_rag.
Qed.

End batch_claims.

(** ** The summary helpers *)

Module summary_facts.
Import Py models config rag_classifier report_generator report_view.

Lemma Qgtb_true (x y : Q) : Qgtb x y = true <-> (y < x)%Q.
Proof.
  unfold Qgtb. rewrite negb_true_iff. split.
  - intros H. apply Qnot_le_lt. intros Hle.
    apply Qle_bool_iff in Hle. congruence.
  - intros Hlt. destruct (Qle_bool x y) eqn:H; [| done].
    apply Qle_bool_iff in H. destruct (Qlt_not_le _ _ Hlt H).
Qed.

Lemma count_rag_cons s issue issues :
  count_rag s (issue :: issues)
  = ((if has_rag s issue then 1 else 0) + count_rag s issues)%nat.
Proof. unfold count_rag. simpl. by destruct (has_rag s issue). Qed.

Lemma count_unclassified_cons issue issues :
  count_unclassified (issue :: issues)
  = ((if bool_decide (rag_status issue = None) then 1 else 0)
     + count_unclassified issues)%nat.
Proof.
  unfold count_unclassified. simpl.
  by destruct (bool_decide (rag_status issue = None)).
Qed.

(** The tally loop adds, to each counter, the number of issues of its
    tier. *)
Lemma foldl_tally (issues : list Issue) (acc : Summary) :
  foldl tally acc issues = {|
    total := total acc;
    green := green acc + count_rag GREEN issues;
    amber := amber acc + count_rag AMBER issues;
    red := red acc + count_rag RED issues;
    unclassified := unclassified acc + count_unclassified issues
  |}.
Proof.
  revert acc. induction issues as [|issue issues IH]; intros acc; simpl.
  - destruct acc. unfold count_rag, count_unclassified. simpl.
    f_equal; lia.
  - rewrite IH, !count_rag_cons, count_unclassified_cons.
    unfold tally, has_rag.
    destruct (rag_status issue) as [[| |]|]; simpl; f_equal; lia.
Qed.

Lemma get_rag_summary_eq (issues : list Issue) :
  get_rag_summary issues = {|
    total := length issues;
    green := count_rag GREEN issues;
    amber := count_rag AMBER issues;
    red := count_rag RED issues;
    unclassified := count_unclassified issues
  |}.
Proof. unfold get_rag_summary. by rewrite foldl_tally. Qed.


Lemma count_rag_pos s (issues : list Issue) :
  (0 < count_rag s issues)%nat
  <-> exists issue, issue ∈ issues /\ rag_status issue = Some s.
Proof.
  induction issues as [|issue issues IH].
  - split; [unfold count_rag; simpl; lia |].
    intros (i & Hi & _). by apply elem_of_nil in Hi.
  - rewrite count_rag_cons. unfold has_rag at 1.
    destruct (bool_decide (rag_status issue = Some s)) eqn:Hb.
    + apply bool_decide_eq_true in Hb. split; [| lia].
      intros _. exists issue. split; [left | done].
    + apply bool_decide_eq_false in Hb. simpl. rewrite IH. split.
      * intros (i & Hi & Hs). exists i. split; [by right | done].
      * intros (i & Hi & Hs). apply elem_of_cons in Hi as [-> | Hi]; [done |].
        by exists i.
Qed.

(** [amber / total > 0.2] in whole numbers *)
Lemma amber_share_iff (a t : nat) :
  (0 < t)%nat -> (0.2 < num a / num t)%Q <-> (t < 5 * a)%nat.
Proof.
  intros Ht. unfold num.
  assert (Htq : (0 < inject_Z (Z.of_nat t))%Q).
  { unfold Qlt. simpl. lia. }
  split.
  - intros H. destruct (Nat.lt_ge_cases t (5 * a)) as [Hlt | Hge]; [done |].
    exfalso. apply (Qlt_not_le _ _ H). apply Qle_shift_div_r; [done |].
    unfold Qle. simpl. lia.
  - intros H. apply Qlt_shift_div_l; [done |].
    unfold Qlt. simpl. lia.
Qed.

(** [amber > green * 0.3] in whole numbers *)
Lemma amber_over_green_iff (a g : nat) :
  (num g * 0.3 < num a)%Q <-> (3 * g < 10 * a)%nat.
Proof. unfold num, Qlt. simpl. lia. Qed.

End summary_facts.

(** ** Claims about the overall status of the classifier *)

Module summary_claims.
Import Py models config rag_classifier report_generator report_view.
Import PyFacts summary_facts examples.

(** C6.  [get_overall_status] is GREEN on the empty list; on any other
    list it is RED when some issue is RED, otherwise AMBER exactly when
    the number of AMBER issues divided by the number of issues is
    strictly above 0.2, and GREEN otherwise. *)
Theorem overall_status_spec (issues : list Issue) :
  get_overall_status [] = GREEN
  /\ (issues <> [] ->
      ((exists issue, issue ∈ issues /\ rag_status issue = Some RED) ->
       get_overall_status issues = RED)
      /\ (~ (exists issue, issue ∈ issues /\ rag_status issue = Some RED) ->
          (get_overall_status issues = AMBER
           <-> (0.2 < num (count_rag AMBER issues) / num (length issues))%Q)
          /\ (~ (0.2 < num (count_rag AMBER issues) / num (length issues))%Q ->
              get_overall_status issues = GREEN))).
Proof.
  split; [reflexivity |]. intros Hne.
  unfold get_overall_status.
  rewrite (proj2 (truthy_true issues) Hne), get_rag_summary_eq. simpl.
  assert (Hlen : (0 <? length issues)%nat = true).
  { apply Nat.ltb_lt. destruct issues; [done | simpl; lia]. }
  rewrite Hlen. split.
  - intros Hred. apply count_rag_pos, Nat.ltb_lt in Hred. by rewrite Hred.
  - intros Hnred.
    assert (Hz : (0 <? count_rag RED issues)%nat = false).
    { apply Nat.ltb_ge. destruct (count_rag RED issues) eqn:Hc; [done |].
      destruct Hnred. apply count_rag_pos. lia. }
    rewrite Hz.
    destruct (Qgtb (num (count_rag AMBER issues) / num (length issues)) 0.2)
      eqn:Hq.
    + apply Qgtb_true in Hq. split; [done |]. intros Hn. by destruct Hn.
    + assert (Hn : ~ (0.2 < num (count_rag AMBER issues) / num (length issues))%Q).
      { intros Hlt. apply Qgtb_true in Hlt. congruence. }
      split; [| done]. split; [done | intros Hlt; by destruct Hn].
Qed.

Lemma overall_status_spec_witness :
  mixed_issues <> []
  /\ (0.2 < num (count_rag AMBER mixed_issues) / num (length mixed_issues))%Q
  /\ get_overall_status mixed_issues = AMBER.
Proof.
  assert (Hne : mixed_issues <> []) by discriminate.
  assert (Hq : (0.2 < num (count_rag AMBER mixed_issues)
                      / num (length mixed_issues))%Q) by reflexivity.
  split; [exact Hne |]. split; [exact Hq |].
  destruct (overall_status_spec mixed_issues) as [_ H].
  destruct (H Hne) as [_ Hrest].
  refine (proj2 (proj1 (Hrest _)) Hq).
  intros (issue & Hin & Hred). unfold mixed_issues in Hin. simpl in Hin.
  repeat (apply elem_of_cons in Hin as [-> | Hin]; [discriminate Hred |]).
  by apply elem_of_nil in Hin.
Defined.

End summary_claims.

(** ** The report categoriser *)

Module report_facts.
Import Py models config rag_classifier report_generator report_view.
Import PyFacts classifier_facts summary_facts.

Lemma le_le_naive (a b c : Z) :
  le_le (Naive a) (Naive b) (Naive c) = Return ((a <=? b)%Z && (b <=? c)%Z).
Proof. unfold le_le. simpl. by destruct (a <=? b)%Z. Qed.

Lemma was_started_reportable issue (week_start week_end : Z) :
  reportable issue ->
  _was_started_this_week issue (Naive week_start) (Naive week_end)
  = Return (started_test week_start week_end issue).
Proof.
  intros ([st Hst] & Hu & _). unfold _was_started_this_week, started_test.
  rewrite (status_name_has_Some _ _ _ Hst), Hst.
  destruct (updated issue) as [u|u]; [| discriminate Hu].
  by rewrite le_le_naive.
Qed.

Lemma was_completed_reportable issue (week_start week_end : Z) :
  reportable issue ->
  _was_completed_this_week issue (Naive week_start) (Naive week_end)
  = Return (completed_test week_start week_end issue).
Proof.
  intros (_ & _ & Hr). unfold _was_completed_this_week, completed_test.
  destruct (resolved issue) as [[r|r]|]; [| | done].
  - by rewrite le_le_naive.
  - by specialize (Hr _ eq_refl).
Qed.

Lemma has_rag_exclusive issue : has_rag RED issue = true -> has_rag AMBER issue = false.
Proof.
  unfold has_rag. intros H%bool_decide_eq_true.
  apply bool_decide_eq_false. congruence.
Qed.

(** One round of the loop appends the issue to each section whose test
    it passes. *)
Lemma categorize_one_reportable (week_start week_end : Z) acc issue :
  reportable issue ->
  categorize_one (Naive week_start) (Naive week_end) acc issue = Return {|
    started := started acc ++ List.filter (started_test week_start week_end) [issue];
    completed :=
      completed acc ++ List.filter (completed_test week_start week_end) [issue];
    blocked := blocked acc ++ List.filter (has_rag RED) [issue];
    at_risk := at_risk acc ++ List.filter (has_rag AMBER) [issue]
  |}.
Proof.
  intros Hrep. unfold categorize_one.
  rewrite (was_started_reportable _ _ _ Hrep). simpl.
  rewrite (was_completed_reportable _ _ _ Hrep). simpl.
  destruct (has_rag RED issue) eqn:Hred.
  - rewrite (has_rag_exclusive _ Hred).
    destruct (started_test _ _ _), (completed_test _ _ _);
      by rewrite ?app_nil_r.
  - destruct (has_rag AMBER issue), (started_test _ _ _),
      (completed_test _ _ _); by rewrite ?app_nil_r.
Qed.

Lemma categorize_loop_reportable (week_start week_end : Z) acc issues :
  Forall reportable issues ->
  categorize_loop (Naive week_start) (Naive week_end) acc issues = Return {|
    started := started acc ++ List.filter (started_test week_start week_end) issues;
    completed :=
      completed acc ++ List.filter (completed_test week_start week_end) issues;
    blocked := blocked acc ++ List.filter (has_rag RED) issues;
    at_risk := at_risk acc ++ List.filter (has_rag AMBER) issues
  |}.
Proof.
  intros Hall. revert acc.
  induction Hall as [|issue issues Hrep Hall IH]; intros acc; simpl.
  - destruct acc. simpl. by rewrite !app_nil_r.
  - rewrite (categorize_one_reportable _ _ _ _ Hrep). simpl.
    rewrite IH. simpl. f_equal.
    destruct (started_test _ _ issue), (completed_test _ _ issue),
      (has_rag RED issue), (has_rag AMBER issue); simpl;
      rewrite <- ?app_assoc; simpl; by rewrite ?app_nil_r.
Qed.


Lemma minus_days_inv (week_ending week_start : date) :
  minus_days week_ending 6 = Return week_start ->
  (7 <= week_ending <= max_ordinal + 6)%Z /\ week_start = (week_ending - 6)%Z.
Proof.
  unfold minus_days, min_ordinal, max_ordinal.
  destruct (1 <=? week_ending - 6)%Z eqn:H1; simpl; [| done].
  destruct (week_ending - 6 <=? 3652059)%Z eqn:H2; simpl; [| done].
  intros [= <-]. apply Z.leb_le in H1, H2. split; [lia | done].
Qed.

Lemma week_bounds (week_ending : date) :
  combine (week_ending - 6)%Z min_time = Naive (first_microsecond week_ending)
  /\ combine week_ending max_time = Naive (last_microsecond week_ending).
Proof.
  unfold combine, min_time, max_time, microseconds_per_day, first_microsecond,
    last_microsecond. split; f_equal; lia.
Qed.

(** The report on a list of reportable issues, for a week whose first
    day exists. *)
Lemma categorize_from_week issues (week_ending : date) :
  Forall reportable issues ->
  minus_days week_ending 6 = Return (week_ending - 6)%Z ->
  _categorize_issues_for_report issues week_ending = Return {|
    started_issues :=
      List.filter (started_test (first_microsecond week_ending)
                                (last_microsecond week_ending)) issues;
    completed_issues :=
      List.filter (completed_test (first_microsecond week_ending)
                                  (last_microsecond week_ending)) issues;
    blocked_issues := List.filter (has_rag RED) issues;
    at_risk_issues := List.filter (has_rag AMBER) issues;
    total_issues := length issues;
    green_count := count_rag GREEN issues;
    amber_count := count_rag AMBER issues;
    red_count := count_rag RED issues;
    overall_rag_status :=
      overall_of_counts (count_rag GREEN issues) (count_rag AMBER issues)
                        (count_rag RED issues)
  |}.
Proof.
  intros Hall Hweek. unfold _categorize_issues_for_report.
  rewrite Hweek. simpl.
  destruct (week_bounds week_ending) as [-> ->].
  by rewrite (categorize_loop_reportable _ _ _ _ Hall).
Qed.


(** The counts of a report never depend on the week. *)
Lemma categorize_counts issues week_ending data :
  _categorize_issues_for_report issues week_ending = Return data ->
  total_issues data = length issues
  /\ green_count data = count_rag GREEN issues
  /\ amber_count data = count_rag AMBER issues
  /\ red_count data = count_rag RED issues
  /\ overall_rag_status data
     = overall_of_counts (green_count data) (amber_count data) (red_count data).
Proof.
  unfold _categorize_issues_for_report.
  destruct (minus_days week_ending 6) as [week_start|e]; simpl; [| done].
  destruct (categorize_loop _ _ _ issues) as [sections|e]; simpl; [| done].
  intros [= <-]. done.
Qed.






End report_facts.

(** ** Claims about the weekly report *)

Module report_claims.
Import Py models config rag_classifier report_generator report_view.
Import PyFacts summary_facts report_facts examples.

Lemma mixed_issues_reportable : Forall reportable mixed_issues.
Proof.
  unfold mixed_issues. simpl.
  repeat constructor; try (by eexists); by intros ? [=].
Qed.

(** C7.  The overall status of a report is RED exactly when its red
    count is positive; with no RED issue it is AMBER exactly when the amber
    count is strictly above 0.3 times the green count, and GREEN
    otherwise.  One AMBER issue alone makes the report AMBER, and the
    formula is not the classifier's: on two AMBER issues among seven GREEN
    ones the report is GREEN and [get_overall_status] is AMBER. *)
Theorem report_overall_status (issues : list Issue) (week_ending : date)
    (data : WeeklyReportData) :
  _categorize_issues_for_report issues week_ending = Return data ->
  (overall_rag_status data = RED <-> (0 < red_count data)%nat)
  /\ (red_count data = 0%nat ->
      (overall_rag_status data = AMBER
       <-> (num (green_count data) * 0.3 < num (amber_count data))%Q)
      /\ (~ (num (green_count data) * 0.3 < num (amber_count data))%Q ->
          overall_rag_status data = GREEN))
  /\ (red_count data = 0%nat -> amber_count data = 1%nat ->
      green_count data = 0%nat -> overall_rag_status data = AMBER)
  /\ (exists data', _categorize_issues_for_report mixed_issues week_ending
                    = Return data'
                    /\ overall_rag_status data' = GREEN
                    /\ get_overall_status mixed_issues = AMBER).
Proof.
  intros Hdata.
  assert (Hweek : minus_days week_ending 6 = Return (week_ending - 6)%Z).
  { revert Hdata. unfold _categorize_issues_for_report.
    destruct (minus_days week_ending 6) as [week_start|e] eqn:Hweek; simpl; [| done].
    by destruct (minus_days_inv _ _ Hweek) as [_ ->]. }
  destruct (categorize_counts _ _ _ Hdata) as (_ & _ & _ & _ & ->).
  unfold overall_of_counts.
  split; [| split; [| split]].
  - destruct (0 <? red_count data)%nat eqn:Hr.
    + apply Nat.ltb_lt in Hr. done.
    + apply Nat.ltb_ge in Hr. split; [| lia].
      by destruct (Qgtb _ _).
  - intros ->. simpl.
    destruct (Qgtb (num (amber_count data)) (num (green_count data) * 0.3))
      eqn:Hq.
    + apply Qgtb_true in Hq. split; [done |]. intros Hn. by destruct Hn.
    + assert (Hn : ~ (num (green_count data) * 0.3 < num (amber_count data))%Q).
      { intros Hlt. apply Qgtb_true in Hlt. congruence. }
      split; [| done]. split; [done | intros Hlt; by destruct Hn].
  - by intros -> -> ->.
  - assert (Hmixed : exists data',
              _categorize_issues_for_report mixed_issues week_ending = Return data'
              /\ overall_rag_status data'
                 = overall_of_counts (count_rag GREEN mixed_issues)
                                     (count_rag AMBER mixed_issues)
                                     (count_rag RED mixed_issues)).
    { eexists. split;
        [exact (categorize_from_week mixed_issues week_ending
                  mixed_issues_reportable Hweek) | reflexivity]. }
    destruct Hmixed as (data' & Hdata' & Hstatus).
    exists data'. split; [done |]. split; [| reflexivity].
    rewrite Hstatus. reflexivity.
Qed.

Lemma report_overall_status_witness :
  exists data, _categorize_issues_for_report [rated AMBER] 100%Z = Return data
               /\ red_count data = 0%nat /\ amber_count data = 1%nat
               /\ green_count data = 0%nat
               /\ overall_rag_status data = AMBER.
Proof.
  eexists. split; [reflexivity |].
  split; [reflexivity |]. split; [reflexivity |]. split; [reflexivity |].
  refine (proj1 (proj2 (proj2 (report_overall_status [rated AMBER] 100%Z _ eq_refl)))
            eq_refl eq_refl eq_refl).
Defined.



End report_claims.

(** ** Exact and binary64 arithmetic agree on small tallies *)

Module float_facts.
Import Py models rag_classifier report_generator report_view FloatCheck.
Import summary_facts.

Lemma forallb_seq (f : nat -> bool) (start len x : nat) :
  forallb f (seq start len) = true -> (start <= x < start + len)%nat ->
  f x = true.
Proof.
  intros H Hx. rewrite forallb_forall in H. apply H. by apply in_seq.
Qed.

(** Both arithmetics agree on every pair of tallies up to [bound]. *)
Lemma agree_share :
  forallb (fun t =>
    forallb (fun a => Bool.eqb (share_over a t) (Qgtb (num a / num t) 0.2))
            (seq 0 (S t)))
    (seq 1 bound) = true.
Proof. vm_compute. reflexivity. Qed.

Lemma agree_green :
  forallb (fun g =>
    forallb (fun a => Bool.eqb (over_green a g) (Qgtb (num a) (num g * 0.3)))
            (seq 0 (S bound)))
    (seq 0 (S bound)) = true.
Proof. vm_compute. reflexivity. Qed.

Lemma share_over_exact (a t : nat) :
  (0 < t <= bound)%nat -> (a <= t)%nat ->
  share_over a t = Qgtb (num a / num t) 0.2.
Proof.
  intros Ht Ha. apply Bool.eqb_prop.
  pose proof (forallb_seq _ 1 bound t agree_share) as H.
  apply (forallb_seq
           (fun a => Bool.eqb (share_over a t) (Qgtb (num a / num t) 0.2))
           0 (S t) a); [apply H |]; lia.
Qed.

Lemma over_green_exact (a g : nat) :
  (a <= bound)%nat -> (g <= bound)%nat ->
  over_green a g = Qgtb (num a) (num g * 0.3).
Proof.
  intros Ha Hg. apply Bool.eqb_prop.
  pose proof (forallb_seq _ 0 (S bound) g agree_green) as H.
  apply (forallb_seq
           (fun a => Bool.eqb (over_green a g) (Qgtb (num a) (num g * 0.3)))
           0 (S bound) a); [apply H |]; lia.
Qed.

Lemma count_rag_le s (issues : list Issue) :
  (count_rag s issues <= length issues)%nat.
Proof. unfold count_rag. apply filter_length_le. Qed.

(** On a list of at most [bound] issues the classifier's overall status
    is the same in both arithmetics. *)
Lemma get_overall_status_float_exact (issues : list Issue) :
  (length issues <= bound)%nat ->
  get_overall_status_float issues = get_overall_status issues.
Proof.
  intros Hlen. unfold get_overall_status_float, get_overall_status.
  destruct (negb (truthy issues)); [done |].
  rewrite get_rag_summary_eq. simpl.
  destruct (0 <? count_rag RED issues)%nat; [done |].
  destruct (0 <? length issues)%nat eqn:Hpos; simpl; [| done].
  apply Nat.ltb_lt in Hpos.
  rewrite share_over_exact; [done | lia | apply count_rag_le].
Qed.

(** Likewise for the report, on tallies up to [bound]. *)
Lemma overall_of_counts_float_exact (green_count amber_count red_count : nat) :
  (green_count <= bound)%nat -> (amber_count <= bound)%nat ->
  overall_of_counts_float green_count amber_count red_count
  = overall_of_counts green_count amber_count red_count.
Proof.
  intros Hg Ha. unfold overall_of_counts_float, overall_of_counts.
  by rewrite over_green_exact.
Qed.

End float_facts.
